(** * Ensino-Superior: the load / filter / aggregate pipeline of [app.py]

    Shallow embedding of the data pipeline of the dashboard: the loader
    [carregar_dados], the sidebar filters that build [df_filtrado], the key
    metrics and the grouped views.  The pandas objects are modelled as the
    script uses them:

    - a cell is an integer, a text or NaN ([valor]); numbers are the integer
      counts and codes of the census table, fractional floats are outside the
      model;
    - a [DataFrame] is a list of column labels and a list of rows, each row
      holding one cell per label, in label order;
    - the body of the [try] block runs in an exception monad ([resultado])
      and logs the [st.info] / [st.error] calls ([mensagem]). *)

From Stdlib Require Import ZArith List String Ascii Bool Lia.
From Stdlib Require Import Sorting.Sorted Sorting.Permutation.
Import ListNotations.
Open Scope string_scope.

(** ** Cells *)

Inductive valor : Type :=
| VInt (z : Z)
| VStr (s : string)
| VNaN.

Definition valor_eq_dec (a b : valor) : {a = b} + {a <> b}.
Proof.
  decide equality; [apply Z.eq_dec | apply string_dec].
Defined.

(** [a == b] on scalars, as pandas and Python evaluate it: NaN equals
    nothing, a number never equals a text. *)
Definition valor_eqb (a b : valor) : bool :=
  match a, b with
  | VInt x, VInt y => Z.eqb x y
  | VStr s, VStr t => String.eqb s t
  | _, _ => false
  end.

(** [pd.isna] / [pd.notna]. *)
Definition isna (v : valor) : bool :=
  match v with VNaN => true | _ => false end.

Definition notna (v : valor) : bool := negb (isna v).

(** [Series.fillna(d)] on one cell. *)
Definition fillna (d : valor) (v : valor) : valor :=
  match v with VNaN => d | _ => v end.

(** [Series.map(dict)] on one cell: a key of the dict gives its entry, any
    other cell gives NaN.  The dicts of the script have integer keys. *)
Fixpoint procura (z : Z) (d : list (Z * string)) : option string :=
  match d with
  | [] => None
  | (k, l) :: d' => if Z.eqb z k then Some l else procura z d'
  end.

Definition map_dict (d : list (Z * string)) (v : valor) : valor :=
  match v with
  | VInt z => match procura z d with Some l => VStr l | None => VNaN end
  | _ => VNaN
  end.

(** ** Tables *)

Record DataFrame : Type := mkDF {
  columns : list string;
  rows : list (list valor)
}.

(** [pd.DataFrame()] *)
Definition DataFrame_vazio : DataFrame := mkDF [] [].

(** [df.empty]: some axis has length zero. *)
Definition empty (df : DataFrame) : bool :=
  match columns df, rows df with
  | [], _ => true
  | _, [] => true
  | _, _ => false
  end.

(** [len(df)] *)
Definition len (df : DataFrame) : nat := List.length (rows df).

(** [col in df.columns] *)
Definition contem (df : DataFrame) (c : string) : bool :=
  existsb (String.eqb c) (columns df).

(** Position of a label in the column index. *)
Fixpoint posicao (c : string) (cs : list string) : option nat :=
  match cs with
  | [] => None
  | x :: cs' =>
      if String.eqb c x then Some O
      else match posicao c cs' with Some i => Some (S i) | None => None end
  end.

(** The cell of row [r] under label [c].  The script selects columns of
    tables whose labels are distinct; with a repeated label pandas hands
    back a frame instead of a Series, which the loader accounts for in
    [serie_unica] below. *)
Definition celula (cs : list string) (c : string) (r : list valor) : valor :=
  match posicao c cs with
  | Some i => nth i r VNaN
  | None => VNaN
  end.

(** [df[c]] as the list of its cells, top to bottom. *)
Definition coluna (df : DataFrame) (c : string) : list valor :=
  map (celula (columns df) c) (rows df).

(** Apply [f] to the cell at position [i] of a row. *)
Fixpoint altera (i : nat) (f : valor -> valor) (r : list valor) : list valor :=
  match r, i with
  | [], _ => []
  | v :: r', O => f v :: r'
  | v :: r', S j => v :: altera j f r'
  end.

(** [df[c] = f(df[c])] for an elementwise [f], [c] being a label of [df]. *)
Definition transforma_coluna (c : string) (f : valor -> valor)
    (df : DataFrame) : DataFrame :=
  match posicao c (columns df) with
  | Some i => mkDF (columns df) (map (altera i f) (rows df))
  | None => df
  end.

(** [df.rename(columns=d)]: labels that are keys of [d] are replaced. *)
Fixpoint renomeia_rotulo (d : list (string * string)) (c : string) : string :=
  match d with
  | [] => c
  | (k, n) :: d' => if String.eqb c k then n else renomeia_rotulo d' c
  end.

Definition rename (d : list (string * string)) (df : DataFrame) : DataFrame :=
  mkDF (map (renomeia_rotulo d) (columns df)) (rows df).

(** [df[mask]] where the mask is computed row by row. *)
Definition seleciona (p : list valor -> bool) (df : DataFrame) : DataFrame :=
  mkDF (columns df) (filter p (rows df)).

(** ** Exceptions and diagnostics *)

Inductive excecao : Type :=
| ParserError (m : string)
| TypeError (m : string)
| FileNotFoundError (m : string)
| OutraExcecao (m : string).

(** [str(e)] *)
Definition texto (e : excecao) : string :=
  match e with
  | ParserError m | TypeError m | FileNotFoundError m | OutraExcecao m => m
  end.

Inductive resultado (A : Type) : Type :=
| Ok (a : A)
| Levanta (e : excecao).

Arguments Ok {A} a.
Arguments Levanta {A} e.

Definition bind {A B : Type} (x : resultado A) (k : A -> resultado B)
    : resultado B :=
  match x with
  | Ok a => k a
  | Levanta e => Levanta e
  end.

Notation "x >>= k" := (bind x k) (at level 50, left associativity).

(** The calls [st.info], [st.error] and [st.warning], in program order. *)
Inductive mensagem : Type :=
| MInfo (s : string)
| MError (s : string)
| MWarning (s : string).

Definition eh_erro (m : mensagem) : bool :=
  match m with MError _ => true | _ => false end.

(** ** The file system seen by the loader *)

(** What [pd.read_csv(sep=';')] finds in a file: the header labels and the
    records, field by field, each field already typed by the reader. *)
Record csv : Type := mkCSV {
  cabecalho : list string;
  registros : list (list valor)
}.

Inductive estado_arquivo : Type :=
| Ausente
| Ilegivel (e : excecao)
| Legivel (c : csv).

Record ambiente : Type := mkAmb {
  script_dir : string;
  arquivo : string -> estado_arquivo
}.

(** [os.path.exists] *)
Definition exists_ (amb : ambiente) (p : string) : bool :=
  match arquivo amb p with Ausente => false | _ => true end.

Definition termina_em_barra (s : string) : bool :=
  match get (String.length s - 1) s with
  | Some c => Ascii.eqb c "/"%char
  | None => false
  end.

(** [os.path.join(a, b)] for a relative [b]. *)
Definition path_join (a b : string) : string :=
  if String.eqb a "" then b
  else if termina_em_barra a then a ++ b
  else a ++ "/" ++ b.

(** A record shorter than the header is completed with NaN. *)
Definition completa (n : nat) (r : list valor) : list valor :=
  r ++ repeat VNaN (n - List.length r).

(** [pd.read_csv]: a record with more fields than the header is a
    tokenizing error; an unreadable file raises what the reader raises. *)
Definition read_csv (a : estado_arquivo) : resultado DataFrame :=
  match a with
  | Ausente => Levanta (FileNotFoundError "No such file or directory")
  | Ilegivel e => Levanta e
  | Legivel c =>
      let n := List.length (cabecalho c) in
      if existsb (fun r => Nat.ltb n (List.length r)) (registros c)
      then Levanta (ParserError "Error tokenizing data")
      else Ok (mkDF (cabecalho c) (map (completa n) (registros c)))
  end.

(** ** Constants of [carregar_dados] *)

Definition csv_file_name : string := "table_EDUCACAO_SUPERIOR_RIDE_DF.csv".

Definition required_original_cols : list string :=
  [ "NU_ANO_CENSO"; "CO_MUNICIPIO_IES"; "nome_municipio"; "IN_CAPITAL_IES";
    "TP_ORGANIZACAO_ACADEMICA"; "TP_REDE"; "TP_CATEGORIA_ADMINISTRATIVA";
    "NO_IES"; "SG_IES"; "QT_DOC_TOTAL"; "QT_TEC_TOTAL"; "NO_MANTENEDORA";
    "QT_DOC_EX_SEM_GRAD"; "QT_DOC_EX_GRAD"; "QT_DOC_EX_ESP";
    "QT_DOC_EX_MEST"; "QT_DOC_EX_DOUT";
    "QT_LIVRO_ELETRONICO"; "QT_DOC_EX_FEMI"; "QT_DOC_EX_MASC" ].

Definition rename_map : list (string * string) :=
  [ ("NU_ANO_CENSO", "Ano do Censo");
    ("nome_municipio", "Município");
    ("IN_CAPITAL_IES", "É Capital?");
    ("TP_ORGANIZACAO_ACADEMICA", "Organização Acadêmica");
    ("TP_REDE", "Tipo de Rede");
    ("TP_CATEGORIA_ADMINISTRATIVA", "Categoria Administrativa");
    ("NO_MANTENEDORA", "Mantenedora");
    ("NO_IES", "Nome da IES");
    ("SG_IES", "Sigla da IES");
    ("QT_DOC_TOTAL", "Total de Docentes");
    ("QT_TEC_TOTAL", "Total de Técnicos");
    ("QT_DOC_EX_SEM_GRAD", "Docentes Sem Graduação");
    ("QT_DOC_EX_GRAD", "Docentes com Graduação");
    ("QT_DOC_EX_ESP", "Docentes com Especialização");
    ("QT_DOC_EX_MEST", "Docentes com Mestrado");
    ("QT_DOC_EX_DOUT", "Docentes com Doutorado");
    ("QT_LIVRO_ELETRONICO", "Total de Livros Eletrônicos");
    ("QT_DOC_EX_FEMI", "Docentes Feminino");
    ("QT_DOC_EX_MASC", "Docentes Masculino") ].

Definition numeric_cols_to_fill : list string :=
  [ "Total de Docentes"; "Total de Técnicos";
    "Docentes Sem Graduação"; "Docentes com Graduação";
    "Docentes com Especialização";
    "Docentes com Mestrado"; "Docentes com Doutorado";
    "Total de Livros Eletrônicos"; "Docentes Feminino"; "Docentes Masculino" ].

Definition nao_definido : string := "Não Definido".

Definition capital_map : list (Z * string) :=
  [ (1, "Sim"); (0, "Não") ]%Z.

Definition organizacao_map : list (Z * string) :=
  [ (1, "Universidade"); (2, "Centro Universitário");
    (3, "Faculdade");
    (4, "Instituto Federal de Educação, Ciência e Tecnologia (IF)");
    (5, "Centro Federal de Educação Tecnológica (CEFET)");
    (99, "Outra") ]%Z.

Definition rede_map : list (Z * string) :=
  [ (1, "Pública"); (2, "Privada") ]%Z.

Definition categoria_map : list (Z * string) :=
  [ (1, "Pública Federal"); (2, "Pública Estadual"); (3, "Pública Municipal");
    (4, "Privada Comunitária"); (5, "Privada Confessional");
    (6, "Privada Filantrópica");
    (7, "Privada Sem Fins Lucrativos"); (8, "Privada Com Fins Lucrativos") ]%Z.

(** [s.map(d).fillna('Não Definido')] on one cell. *)
Definition rotula (d : list (Z * string)) (v : valor) : valor :=
  fillna (VStr nao_definido) (map_dict d v).

(** [', '.join(l)] *)
Definition join (sep : string) (l : list string) : string :=
  String.concat sep l.

Definition msg_tentando (p : string) : string :=
  "Tentando carregar o CSV de: `" ++ p ++ "`".

Definition msg_nao_encontrado : string :=
  "Erro: O arquivo '" ++ csv_file_name ++ "' não foi encontrado.".

Definition msg_coloque (p : string) : string :=
  "Por favor, coloque o arquivo CSV na mesma pasta do 'app.py'."
  ++ " O caminho absoluto que o script esperava encontrar o CSV é: `"
  ++ p ++ "`".

Definition msg_colunas (missing : list string) : string :=
  "Erro: As seguintes colunas essenciais não foram encontradas no arquivo CSV: "
  ++ join ", " missing ++ "."
  ++ " Verifique se o arquivo está correto e se os nomes das colunas correspondem (sensível a maiúsculas/minúsculas).".

Definition msg_inesperado (e : excecao) : string :=
  "Ocorreu um erro inesperado ao carregar ou processar os dados: " ++ texto e.

Definition msg_verifique : string :=
  "Verifique se o arquivo CSV está no formato correto (separador ';', codificação 'utf-8') e se não há problemas de dados.".

(** [df[col]] is a Series only when the label occurs once; with a repeated
    label it is a frame, on which [pd.to_numeric] and [.map(dict)] raise. *)
Definition serie_unica (df : DataFrame) (col : string) : bool :=
  Nat.leb (count_occ string_dec (columns df) col) 1.

(** [if col in df.columns: df[col] = f(df[col])] for an elementwise [f]
    that raises [e] when handed a frame. *)
Definition aplica_em (col : string) (f : valor -> valor) (e : excecao)
    (df : DataFrame) : resultado DataFrame :=
  if contem df col then
    if serie_unica df col then Ok (transforma_coluna col f df)
    else Levanta e
  else Ok df.

Definition erro_to_numeric : excecao :=
  TypeError "arg must be a list, tuple, 1-d array, or Series".

Definition erro_map : excecao :=
  TypeError "'dict' object is not callable".

Section Carga.

(** The conversion of a text to a number inside [pd.to_numeric]: [None] for
    a text that is not a number.  It belongs to pandas; the loader is
    modelled for any such conversion. *)
Variable numero_de_texto : string -> option Z.

(** [pd.to_numeric(s, errors='coerce')] on one cell. *)
Definition to_numeric (v : valor) : valor :=
  match v with
  | VInt z => VInt z
  | VStr s =>
      match numero_de_texto s with
      | Some z => VInt z
      | None => VNaN
      end
  | VNaN => VNaN
  end.

(** [pd.to_numeric(df[col], errors='coerce').fillna(0)] on one cell. *)
Definition coage (v : valor) : valor := fillna (VInt 0) (to_numeric v).

(** The [for col in numeric_cols_to_fill] loop. *)
Fixpoint preenche_numericas (cols : list string) (df : DataFrame)
    : resultado DataFrame :=
  match cols with
  | [] => Ok df
  | col :: cols' =>
      aplica_em col coage erro_to_numeric df >>= preenche_numericas cols'
  end.

(** The four categorical mappings, in program order. *)
Definition mapeia_categoricas (df : DataFrame) : resultado DataFrame :=
  aplica_em "É Capital?" (rotula capital_map) erro_map df
  >>= aplica_em "Organização Acadêmica" (rotula organizacao_map) erro_map
  >>= aplica_em "Tipo de Rede" (rotula rede_map) erro_map
  >>= aplica_em "Categoria Administrativa" (rotula categoria_map) erro_map.

(** [missing_cols] *)
Definition missing_cols (df : DataFrame) : list string :=
  filter (fun col => negb (contem df col)) required_original_cols.

(** The path the loader opens. *)
Definition csv_file_path_absolute (amb : ambiente) : string :=
  path_join (script_dir amb) csv_file_name.

(** The body of the [try] block: the messages shown and either the value
    returned or the exception raised. *)
Definition corpo (amb : ambiente) : list mensagem * resultado DataFrame :=
  let p := csv_file_path_absolute amb in
  let m0 := [MInfo (msg_tentando p)] in
  if negb (exists_ amb p) then
    ((m0 ++ [MError msg_nao_encontrado; MError (msg_coloque p)])%list,
     Ok DataFrame_vazio)
  else
    match read_csv (arquivo amb p) with
    | Levanta e => (m0, Levanta e)
    | Ok df =>
        match missing_cols df with
        | _ :: _ => ((m0 ++ [MError (msg_colunas (missing_cols df))])%list,
                     Ok DataFrame_vazio)
        | [] =>
            (m0,
             preenche_numericas numeric_cols_to_fill (rename rename_map df)
             >>= mapeia_categoricas)
        end
    end.

(** [carregar_dados]: the body under [try ... except Exception]. *)
Definition carregar_dados (amb : ambiente)
    : list mensagem * resultado DataFrame :=
  match corpo amb with
  | (ms, Ok df) => (ms, Ok df)
  | (ms, Levanta e) =>
      ((ms ++ [MError (msg_inesperado e); MInfo msg_verifique])%list,
       Ok DataFrame_vazio)
  end.

End Carga.

(** ** Sidebar filters *)

(** The five selections of the sidebar.  [ano_sel] is [None] when the
    script sets it to Python's [None]. *)
Record selecao : Type := mkSel {
  ano_sel : option valor;
  organizacao_sel : valor;
  tipo_rede_sel : valor;
  municipio_sel : valor;
  instituicao_sel : valor
}.

Definition Todas : valor := VStr "Todas".
Definition Todos : valor := VStr "Todos".

(** Python's [a != b] on scalars. *)
Definition valor_neqb (a b : valor) : bool := negb (valor_eqb a b).

(** What the user picks in each of the five select boxes. *)
Record escolhas : Type := mkEsc {
  escolha_ano : valor;
  escolha_organizacao : valor;
  escolha_tipo_rede : valor;
  escolha_municipio : valor;
  escolha_instituicao : valor
}.

(** The selections the sidebar block ends with, in a run in which every
    select box was built ([caixas] below is the building, which can raise):
    the pick of the box for a column that exists, the default otherwise. *)
Definition barra_lateral (df : DataFrame) (e : escolhas) : selecao :=
  {| ano_sel :=
       if contem df "Ano do Censo" then Some (escolha_ano e) else None;
     organizacao_sel :=
       if contem df "Organização Acadêmica" then escolha_organizacao e
       else Todas;
     tipo_rede_sel :=
       if contem df "Tipo de Rede" then escolha_tipo_rede e else Todas;
     municipio_sel :=
       if contem df "Município" then escolha_municipio e else Todos;
     instituicao_sel :=
       if contem df "Nome da IES" then escolha_instituicao e else Todas |}.

(** [df[df[c] == v]] *)
Definition filtra_igual (c : string) (v : valor) (df : DataFrame)
    : DataFrame :=
  seleciona (fun r => valor_eqb (celula (columns df) c r) v) df.

(** The block that builds [df_filtrado]. *)
Definition aplicar_filtros (df : DataFrame) (s : selecao) : DataFrame :=
  let d0 := df in
  let d1 :=
    match ano_sel s with
    | Some a =>
        if contem d0 "Ano do Censo" then filtra_igual "Ano do Censo" a d0
        else d0
    | None => d0
    end in
  let d2 :=
    if valor_neqb (organizacao_sel s) Todas
       && contem d1 "Organização Acadêmica"
    then filtra_igual "Organização Acadêmica" (organizacao_sel s) d1 else d1 in
  let d3 :=
    if valor_neqb (tipo_rede_sel s) Todas && contem d2 "Tipo de Rede"
    then filtra_igual "Tipo de Rede" (tipo_rede_sel s) d2 else d2 in
  let d4 :=
    if valor_neqb (municipio_sel s) Todos && contem d3 "Município"
    then filtra_igual "Município" (municipio_sel s) d3 else d3 in
  let d5 :=
    if valor_neqb (instituicao_sel s) Todas && contem d4 "Nome da IES"
    then filtra_igual "Nome da IES" (instituicao_sel s) d4 else d4 in
  d5.

(** ** Aggregation primitives *)

Section Listas.

Context {A : Type}.
Variable eq_dec : forall a b : A, {a = b} + {a <> b}.

(** The distinct elements, in order of first appearance. *)
Fixpoint unique (l : list A) : list A :=
  match l with
  | [] => []
  | x :: l' => x :: filter (fun y => if eq_dec x y then false else true)
                           (unique l')
  end.

Variable leb : A -> A -> bool.

Fixpoint insere (x : A) (l : list A) : list A :=
  match l with
  | [] => [x]
  | y :: l' => if leb x y then x :: l else y :: insere x l'
  end.

(** Sort by [leb], ascending. *)
Fixpoint ordena (l : list A) : list A :=
  match l with
  | [] => []
  | x :: l' => insere x (ordena l')
  end.

End Listas.

(** Order of group keys: numbers, then texts, then NaN. *)
Definition valor_cmp (a b : valor) : comparison :=
  match a, b with
  | VInt x, VInt y => Z.compare x y
  | VInt _, _ => Lt
  | VStr _, VInt _ => Gt
  | VStr s, VStr t => String.compare s t
  | VStr _, VNaN => Lt
  | VNaN, VNaN => Eq
  | VNaN, _ => Gt
  end.

(** Lexicographic order of key tuples. *)
Fixpoint chave_leb (a b : list valor) : bool :=
  match a, b with
  | [], _ => true
  | _ :: _, [] => false
  | x :: a', y :: b' =>
      match valor_cmp x y with
      | Lt => true
      | Gt => false
      | Eq => chave_leb a' b'
      end
  end.

Definition chave_eq_dec : forall a b : list valor, {a = b} + {a <> b} :=
  list_eq_dec valor_eq_dec.

Definition chave_eqb (a b : list valor) : bool :=
  if chave_eq_dec a b then true else false.

(** The key tuple of a row. *)
Definition chave (cs : list string) (keys : list string) (r : list valor)
    : list valor :=
  map (fun k => celula cs k r) keys.

(** [Series.nunique()]: distinct values, NaN apart. *)
Definition nunique (l : list valor) : nat :=
  List.length (unique valor_eq_dec (filter notna l)).

(** The number a cell contributes to a sum: NaN is skipped.  The columns
    summed by the script hold numbers only after [carregar_dados]. *)
Definition numero (v : valor) : Z :=
  match v with VInt z => z | _ => 0%Z end.

(** [Series.sum()] *)
Definition soma (l : list valor) : Z :=
  fold_right Z.add 0%Z (map numero l).

(** [df.groupby(keys)]: the keys of the groups, sorted, rows with a NaN key
    dropped, each with its rows in table order. *)
Definition chaves_dos_grupos (df : DataFrame) (keys : list string)
    : list (list valor) :=
  ordena chave_leb
    (unique chave_eq_dec
       (filter (forallb notna) (map (chave (columns df) keys) (rows df)))).

Definition grupo (df : DataFrame) (keys : list string) (k : list valor)
    : DataFrame :=
  seleciona (fun r => chave_eqb (chave (columns df) keys r) k) df.

Definition groupby (df : DataFrame) (keys : list string)
    : list (list valor * DataFrame) :=
  map (fun k => (k, grupo df keys k)) (chaves_dos_grupos df keys).

(** [df.groupby(keys)[cols].sum().reset_index()] as rows: key, then sums. *)
Definition groupby_sum (df : DataFrame) (keys cols : list string)
    : list (list valor * list Z) :=
  map (fun kg => (fst kg, map (fun c => soma (coluna (snd kg) c)) cols))
      (groupby df keys).

(** [df.groupby(key)[col].nunique()] *)
Definition groupby_nunique (df : DataFrame) (key col : string)
    : list (list valor * nat) :=
  map (fun kg => (fst kg, nunique (coluna (snd kg) col)))
      (groupby df [key]).

(** A grouped result as a table: key cells, then the numbers. *)
Definition linha_de (kz : list valor * list Z) : list valor :=
  (fst kz ++ map VInt (snd kz))%list.

(** ** Building the select boxes *)

Definition eh_texto (v : valor) : bool :=
  match v with VStr _ => true | _ => false end.

(** A list that holds a text beside a number or a NaN: Python cannot
    order such values. *)
Definition mistura (l : list valor) : bool :=
  existsb eh_texto l && existsb (fun v => negb (eh_texto v)) l.

Definition valor_leb (a b : valor) : bool :=
  match valor_cmp a b with Gt => false | _ => true end.

Definition erro_sorted : excecao :=
  TypeError "'<' not supported between instances of 'str' and 'float'".

Definition erro_unique : excecao :=
  OutraExcecao "'DataFrame' object has no attribute 'unique'".

(** Python's [sorted] on scalars: [TypeError] as soon as a text has to be
    compared with a number or a NaN.  Among numbers Python leaves the place
    of a NaN to the comparisons it happens to make; here it goes last. *)
Definition sorted (l : list valor) : resultado (list valor) :=
  if mistura l then Levanta erro_sorted
  else Ok (ordena valor_leb l).

(** The options of the select box of column [c]:
    [extra + list(sorted(df[c].unique()))], or [extra] alone when the
    column does not exist and no box is built.  A repeated label makes
    [df[c]] a frame, which has no [unique]. *)
Definition caixa (extra : list valor) (df : DataFrame) (c : string)
    : resultado (list valor) :=
  if contem df c then
    if serie_unica df c then
      sorted (unique valor_eq_dec (coluna df c))
      >>= fun l => Ok (extra ++ l)%list
    else Levanta erro_unique
  else Ok extra.

(** The five select boxes, in program order; the first that raises stops
    the script. *)
Definition caixas (df : DataFrame) : resultado (list (list valor)) :=
  caixa [] df "Ano do Censo" >>= fun a =>
  caixa [Todas] df "Organização Acadêmica" >>= fun o =>
  caixa [Todas] df "Tipo de Rede" >>= fun t =>
  caixa [Todos] df "Município" >>= fun m =>
  caixa [Todas] df "Nome da IES" >>= fun i =>
  Ok [a; o; t; m; i].

(** The options offered by a select box; none when it could not be
    built. *)
Definition opcoes (extra : list valor) (df : DataFrame) (c : string)
    : list valor :=
  match caixa extra df c with
  | Ok l => l
  | Levanta _ => []
  end.

(** Every pick is one of the options offered. *)
Definition escolha_possivel (df : DataFrame) (e : escolhas) : Prop :=
  In (escolha_ano e) (opcoes [] df "Ano do Censo")
  /\ In (escolha_organizacao e) (opcoes [Todas] df "Organização Acadêmica")
  /\ In (escolha_tipo_rede e) (opcoes [Todas] df "Tipo de Rede")
  /\ In (escolha_municipio e) (opcoes [Todos] df "Município")
  /\ In (escolha_instituicao e) (opcoes [Todas] df "Nome da IES").

(** ** Metrics and views on [df_filtrado] *)

Definition total_ies (df : DataFrame) : nat :=
  if contem df "Nome da IES" then nunique (coluna df "Nome da IES") else 0.

Definition total_docentes_ex (df : DataFrame) : Z :=
  if contem df "Total de Docentes" then soma (coluna df "Total de Docentes")
  else 0%Z.

Definition total_municipios_c_ies (df : DataFrame) : nat :=
  if contem df "Município" then nunique (coluna df "Município") else 0.

Definition total_livros_eletronicos (df : DataFrame) : Z :=
  if contem df "Total de Livros Eletrônicos"
  then soma (coluna df "Total de Livros Eletrônicos") else 0%Z.

Definition ies_por_municipio (df : DataFrame) : DataFrame :=
  mkDF ["Município"; "Total de IES"]
    (map (fun kn => (fst kn ++ [VInt (Z.of_nat (snd kn))])%list)
         (groupby_nunique df "Município" "Nome da IES")).

(** Ascending order of the first summed column. *)
Definition soma_leb (a b : list valor * list Z) : bool :=
  Z.leb (hd 0%Z (snd a)) (hd 0%Z (snd b)).

(** [tec_por_mantenedora], as (key, sums) pairs: grouped sums, then
    [sort_values("Total de Técnicos", ascending=True)]. *)
Definition tec_por_mantenedora (df : DataFrame)
    : list (list valor * list Z) :=
  ordena soma_leb (groupby_sum df ["Mantenedora"] ["Total de Técnicos"]).

Definition quadro_tec_por_mantenedora (df : DataFrame) : DataFrame :=
  mkDF ["Mantenedora"; "Total de Técnicos"]
    (map linha_de (tec_por_mantenedora df)).

(** [melt]: one row per (group, variable). *)
Definition docentes_long (df : DataFrame) : DataFrame :=
  let g := groupby_sum df ["Organização Acadêmica"]
             ["Docentes Feminino"; "Docentes Masculino"] in
  mkDF ["Organização Acadêmica"; "Sexo"; "Quantidade de Docentes"]
    (map (fun kz => (fst kz ++ [VStr "Docentes Feminino";
                                VInt (nth 0 (snd kz) 0%Z)])%list) g
     ++ map (fun kz => (fst kz ++ [VStr "Docentes Masculino";
                                   VInt (nth 1 (snd kz) 0%Z)])%list) g)%list.

(** [value_counts()]: occurrences of each value, NaN apart, most frequent
    first. *)
Definition value_counts (l : list valor) : list (valor * nat) :=
  ordena (fun a b => Nat.leb (snd b) (snd a))
    (map (fun v => (v, count_occ valor_eq_dec l v))
         (unique valor_eq_dec (filter notna l))).

Definition cat_admin_counts (df : DataFrame) : DataFrame :=
  mkDF ["Categoria Administrativa"; "Número de IES"]
    (map (fun vn => [fst vn; VInt (Z.of_nat (snd vn))])
         (value_counts (coluna df "Categoria Administrativa"))).

Definition df_treemap_livros (df : DataFrame) : DataFrame :=
  mkDF ["Organização Acadêmica"; "Categoria Administrativa"; "Tipo de Rede";
        "Soma de Livros Eletrônicos"]
    (map linha_de
       (groupby_sum df
          ["Organização Acadêmica"; "Categoria Administrativa"; "Tipo de Rede"]
          ["Total de Livros Eletrônicos"])).

Definition docentes_cols_for_plot : list string :=
  [ "Docentes Sem Graduação"; "Docentes com Graduação";
    "Docentes com Especialização";
    "Docentes com Mestrado"; "Docentes com Doutorado" ].

Definition docentes_resumo_filtrado (df : DataFrame) : DataFrame :=
  mkDF ["Nível de Formação"; "Total de Docentes"]
    (map (fun c => [VStr c; VInt (soma (coluna df c))])
         docentes_cols_for_plot).

Definition group_cols : list string :=
  [ "Ano do Censo"; "Município"; "Nome da IES"; "Sigla da IES";
    "Organização Acadêmica"; "Tipo de Rede"; "Categoria Administrativa" ].

Definition measures : list string :=
  [ "Total de Docentes"; "Total de Técnicos" ].

Definition ies_summary_table (df : DataFrame) : DataFrame :=
  mkDF (group_cols ++ ["Total_Docentes_IES"; "Total_Tecnicos_IES"])%list
    (map linha_de (groupby_sum df group_cols measures)).

(** [all(col in df.columns for col in cols)] *)
Definition contem_todas (df : DataFrame) (cols : list string) : bool :=
  forallb (contem df) cols.

(** [df.head(n)] *)
Definition head (n : nat) (df : DataFrame) : DataFrame :=
  mkDF (columns df) (firstn n (rows df)).

(** ** The page *)

(** What the script puts on the page, in program order.  A chart carries
    the table handed to plotly; layout, colours and number formatting are
    the framework's. *)
Inductive elemento : Type :=
| Subheader (s : string)
| Markdown (s : string)
| Info (s : string)
| Warning (s : string)
| Metric (label : string) (value : Z)
| Previa (mostrados filtrados total : nat)
| Dataframe (d : DataFrame)
| PlotlyChart (title : string) (d : DataFrame).

Definition eh_metrica (x : elemento) : bool :=
  match x with Metric _ _ => true | _ => false end.

Definition eh_grafico (x : elemento) : bool :=
  match x with PlotlyChart _ _ => true | _ => false end.

Definition eh_tabela (x : elemento) : bool :=
  match x with Dataframe _ | Previa _ _ _ => true | _ => false end.

Definition msg_sem_registros : string :=
  "Nenhum registro encontrado para os filtros selecionados. Por favor, ajuste os filtros na barra lateral.".

Definition msg_nao_carregou : string :=
  "O aplicativo não pôde carregar os dados. Verifique a mensagem de erro acima para mais detalhes.".

(** Opening words of the static closing text of the page. *)
Definition texto_interatividade : string :=
  "No Streamlit, a interatividade é inerente e bidirecional por natureza.".

Definition texto_tabela : string :=
  "Esta tabela detalha as Instituições de Ensino Superior (IES) com base nos filtros aplicados, fornecendo uma visão granular da estrutura educacional por localização, tipo e dados de pessoal.".

Definition metricas (f : DataFrame) : list elemento :=
  [ Subheader "💡 Métricas Chave";
    Metric "Total de IES" (Z.of_nat (total_ies f));
    Metric "Total de Docentes" (total_docentes_ex f);
    Metric "Municípios c/ IES" (Z.of_nat (total_municipios_c_ies f));
    Metric "Total de Livros Eletrônicos" (total_livros_eletronicos f) ].

Definition previa (df f : DataFrame) : list elemento :=
  [ Subheader "📋 Prévia dos Dados Filtrados";
    Previa (Nat.min 10 (len f)) (len f) (len df);
    Dataframe (head 10 f) ].

Definition grafico_ies_municipio (f : DataFrame) : list elemento :=
  if contem f "Município" && contem f "Nome da IES" && negb (empty f) then
    [ Markdown "##### Total de IES por Município";
      PlotlyChart
        "Número Total de Instituições de Ensino Superior por Município"
        (ies_por_municipio f) ]
  else
    [ Warning "Não foi possível gerar 'Total de IES por Município': Colunas necessárias ausentes ou dados filtrados vazios." ].

Definition grafico_tec_mantenedora (f : DataFrame) : list elemento :=
  if contem f "Mantenedora" && contem f "Total de Técnicos"
     && negb (empty f) then
    [ Markdown "##### Quantidade Total de Técnicos por Mantenedora";
      PlotlyChart "Quantidade Total de Técnicos por Mantenedora"
        (quadro_tec_por_mantenedora f) ]
  else
    [ Warning "Não foi possível gerar 'Quantidade Total de Técnicos por Mantenedora': Colunas necessárias ausentes ou dados filtrados vazios." ].

Definition grafico_docentes_org_sexo (f : DataFrame) : list elemento :=
  if contem_todas f ["Organização Acadêmica"; "Docentes Feminino";
                     "Docentes Masculino"]
     && negb (empty f) then
    [ Markdown "##### Quantidade de Docentes por Sexo e Organização Acadêmica";
      PlotlyChart "Quantidade de Docentes por Sexo e Organização Acadêmica"
        (docentes_long f) ]
  else
    [ Warning "Não foi possível gerar 'Quantidade de Docentes por Sexo e Organização Acadêmica': Colunas necessárias ausentes ou dados filtrados vazios." ].

Definition grafico_cat_admin (f : DataFrame) : list elemento :=
  if contem f "Categoria Administrativa" && negb (empty f) then
    [ Markdown "##### Distribuição de Instituições por Categoria Administrativa";
      PlotlyChart
        "Distribuição de Instituições de Ensino Superior por Categoria Administrativa"
        (cat_admin_counts f) ]
  else
    [ Warning "Não foi possível gerar 'Distribuição de Instituições por Categoria Administrativa': Coluna 'Categoria Administrativa' ausente ou dados filtrados vazios." ].

Definition grafico_treemap_livros (f : DataFrame) : list elemento :=
  if contem_todas f ["Organização Acadêmica"; "Categoria Administrativa";
                     "Tipo de Rede"; "Total de Livros Eletrônicos"]
     && negb (empty f) then
    [ Markdown "##### Estrutura das IES: Organização Acadêmica e Total de Livros Eletrônicos (Treemap)";
      PlotlyChart
        "Estrutura Hierárquica das IES por Organização, Categoria e Tipo de Rede (Tamanho por Livros Eletrônicos)"
        (df_treemap_livros f) ]
  else
    [ Warning "Não foi possível gerar 'Gráfico de Árvore por Livros Eletrônicos': Colunas essenciais ausentes ou dados filtrados vazios." ].

Definition grafico_docentes (f : DataFrame) : list elemento :=
  if contem_todas f docentes_cols_for_plot && negb (empty f) then
    [ Markdown "##### Total de Docentes por Nível de Formação";
      PlotlyChart "Total de Docentes por Nível de Formação (Dados Filtrados)"
        (docentes_resumo_filtrado f) ]
  else
    [ Warning "Não foi possível gerar 'Total de Docentes por Nível de Formação': Colunas de docentes ausentes ou dados filtrados vazios." ].

Definition tabela_detalhada (f : DataFrame) : list elemento :=
  if negb (empty f) then
    ([ Markdown "##### Tabela Detalhada das IES Filtradas por Município, Instituição e Totais" ]
     ++ (if contem_todas f (group_cols ++ measures)
         then [ Dataframe (ies_summary_table f) ]
         else [ Warning "Não foi possível gerar a 'Tabela Detalhada das IES': Colunas essenciais ausentes ou dados filtrados vazios para agrupamento." ])
     ++ [ Markdown texto_tabela ])%list
  else
    [ Info "Nenhum dado filtrado para exibir na tabela detalhada das IES." ].

(** The content area for a given [df] and [df_filtrado]. *)
Definition conteudo (df f : DataFrame) : list elemento :=
  if empty f then [ Info msg_sem_registros ]
  else
    (metricas f
     ++ previa df f
     ++ [ Subheader "📊 Visualizações e Gráficos" ]
     ++ grafico_ies_municipio f
     ++ grafico_tec_mantenedora f
     ++ grafico_docentes_org_sexo f
     ++ grafico_cat_admin f
     ++ grafico_treemap_livros f
     ++ grafico_docentes f
     ++ tabela_detalhada f
     ++ [ Subheader "🔄 Interatividade Bidirecional no Streamlit";
          Markdown texto_interatividade ])%list.

(** The content area of the main block, after [df = carregar_dados()], in
    a run in which every select box was built (the sidebar's own header
    and warnings apart). *)
Definition painel (df : DataFrame) (e : escolhas) : list elemento :=
  if negb (empty df) then
    conteudo df (aplicar_filtros df (barra_lateral df e))
  else [ Info msg_nao_carregou ].

(** The main block as it runs: with a table to show the select boxes are
    built first, outside any [try], and an exception raised there ends the
    script before anything of the content area is produced. *)
Definition pagina (df : DataFrame) (e : escolhas)
    : resultado (list elemento) :=
  if negb (empty df) then
    caixas df >>= fun _ =>
    Ok (conteudo df (aplicar_filtros df (barra_lateral df e)))
  else Ok [ Info msg_nao_carregou ].

(** The columns the select boxes are built from. *)
Definition colunas_das_caixas : list string :=
  [ "Ano do Censo"; "Organização Acadêmica"; "Tipo de Rede"; "Município";
    "Nome da IES" ].

(** No select box has to order a text with a number or a NaN. *)
Definition sem_mistura (df : DataFrame) : bool :=
  forallb (fun c => negb (mistura (coluna df c))) colunas_das_caixas.

(** ** Specification-side definitions *)

(** A normalisation step: label, elementwise function, exception raised on
    a repeated label. *)
Definition passo : Type := (string * (valor -> valor) * excecao)%type.

Definition rotulo_do_passo (p : passo) : string := fst (fst p).

(** What one step does to the rows. *)
Definition linha_do_passo (cs : list string) (p : passo) (r : list valor)
    : list valor :=
  match posicao (rotulo_do_passo p) cs with
  | Some i => altera i (snd (fst p)) r
  | None => r
  end.

(** Steps in sequence, as the loop and the four mappings run them. *)
Fixpoint executa (ps : list passo) (df : DataFrame) : resultado DataFrame :=
  match ps with
  | [] => Ok df
  | (col, f, e) :: ps' => aplica_em col f e df >>= executa ps'
  end.

(** What a sequence of steps does to a cell of column [c]. *)
Fixpoint efeito (ps : list passo) (c : string) (v : valor) : valor :=
  match ps with
  | [] => v
  | (col, f, _) :: ps' => if String.eqb c col then f v else efeito ps' c v
  end.

Definition passos_categoricos : list passo :=
  [ ("É Capital?", rotula capital_map, erro_map);
    ("Organização Acadêmica", rotula organizacao_map, erro_map);
    ("Tipo de Rede", rotula rede_map, erro_map);
    ("Categoria Administrativa", rotula categoria_map, erro_map) ].

Definition passos_numericos (parse : string -> option Z) : list passo :=
  map (fun c => (c, coage parse, erro_to_numeric)) numeric_cols_to_fill.

Definition passos (parse : string -> option Z) : list passo :=
  (passos_numericos parse ++ passos_categoricos)%list.

(** Source label, display label and lookup table of each coded column. *)
Definition colunas_categoricas : list (string * string * list (Z * string)) :=
  [ ("IN_CAPITAL_IES", "É Capital?", capital_map);
    ("TP_ORGANIZACAO_ACADEMICA", "Organização Acadêmica", organizacao_map);
    ("TP_REDE", "Tipo de Rede", rede_map);
    ("TP_CATEGORIA_ADMINISTRATIVA", "Categoria Administrativa",
     categoria_map) ].

(** Source label and display label of each count column. *)
Definition colunas_numericas : list (string * string) :=
  [ ("QT_DOC_TOTAL", "Total de Docentes");
    ("QT_TEC_TOTAL", "Total de Técnicos");
    ("QT_DOC_EX_SEM_GRAD", "Docentes Sem Graduação");
    ("QT_DOC_EX_GRAD", "Docentes com Graduação");
    ("QT_DOC_EX_ESP", "Docentes com Especialização");
    ("QT_DOC_EX_MEST", "Docentes com Mestrado");
    ("QT_DOC_EX_DOUT", "Docentes com Doutorado");
    ("QT_LIVRO_ELETRONICO", "Total de Livros Eletrônicos");
    ("QT_DOC_EX_FEMI", "Docentes Feminino");
    ("QT_DOC_EX_MASC", "Docentes Masculino") ].

(** The closed label set of a lookup table, with the sentinel. *)
Definition rotulo_valido (d : list (Z * string)) (v : valor) : Prop :=
  exists l, v = VStr l /\ (l = nao_definido \/ In l (map snd d)).

(** A table as [read_csv] builds it: one cell per label in every row. *)
Definition retangular (df : DataFrame) : Prop :=
  Forall (fun r => List.length r = List.length (columns df)) (rows df).

(** A table whose labels are pairwise distinct, so that [df[c]] is a
    Series for every label. *)
Definition rotulos_distintos (df : DataFrame) : Prop := NoDup (columns df).

(** ** Sample inputs *)

(** A conversion of texts that recognises no number. *)
Definition nenhum_numero (s : string) : option Z := None.

(** One record of the census file, in the order of
    [required_original_cols]. *)
Definition registro (ano org rede doc tec : valor) (mun ies mant : string)
    : list valor :=
  [ ano; VInt 5300108; VStr mun; VInt 1; org; rede; VInt 1;
    VStr ies; VStr "SG"; doc; tec; VStr mant;
    VInt 0; VInt 1; VInt 2; VInt 3; VInt 4;
    VInt 100; VInt 4; VInt 6 ].

(** The script sits in [/app]; the only file there is the CSV [c]. *)
Definition amb_com (c : csv) : ambiente :=
  mkAmb "/app"
    (fun p => if String.eqb p "/app/table_EDUCACAO_SUPERIOR_RIDE_DF.csv"
              then Legivel c else Ausente).

(** NU_ANO_CENSO=2022; TP_REDE=1; QT_DOC_TOTAL=10, with the academic
    organization code 7 that no table lists. *)
Definition csv_cenario : csv :=
  mkCSV required_original_cols
    [ registro (VInt 2022) (VInt 7) (VInt 1) (VInt 10) (VInt 5)
        "Brasília" "Universidade de Brasília" "X" ].

(** A negative count in QT_DOC_TOTAL. *)
Definition csv_negativo : csv :=
  mkCSV required_original_cols
    [ registro (VInt 2022) (VInt 1) (VInt 1) (VInt (-5)) (VInt 5)
        "Brasília" "Universidade de Brasília" "X" ].

(** A header without QT_DOC_TOTAL, and with a lower-case qt_tec_total. *)
Definition csv_sem_colunas : csv :=
  mkCSV
    (map (fun c => if String.eqb c "QT_TEC_TOTAL" then "qt_tec_total" else c)
         (filter (fun c => negb (String.eqb c "QT_DOC_TOTAL"))
                 required_original_cols))
    [].

(** A header that already has the display label 'Total de Docentes'. *)
Definition csv_rotulo_repetido : csv :=
  mkCSV (required_original_cols ++ ["Total de Docentes"])%list
    [ (registro (VInt 2022) (VInt 1) (VInt 1) (VInt 10) (VInt 5)
         "Brasília" "Universidade de Brasília" "X" ++ [VInt 10])%list ].

(** A record with one field more than the header. *)
Definition csv_campo_a_mais : csv :=
  mkCSV required_original_cols
    [ (registro (VInt 2022) (VInt 1) (VInt 1) (VInt 10) (VInt 5)
         "Brasília" "Universidade de Brasília" "X" ++ [VStr "extra"])%list ].

Definition carga_cenario : list mensagem * resultado DataFrame :=
  Eval vm_compute in carregar_dados nenhum_numero (amb_com csv_cenario).

Definition df_cenario : DataFrame :=
  Eval vm_compute in
    match snd carga_cenario with Ok d => d | Levanta _ => DataFrame_vazio end.

Definition df_negativo : DataFrame :=
  Eval vm_compute in
    match snd (carregar_dados nenhum_numero (amb_com csv_negativo)) with
    | Ok d => d
    | Levanta _ => DataFrame_vazio
    end.

(** ** The filter as a conjunction of conditions *)

Definition tem (cs : list string) (c : string) : bool :=
  existsb (String.eqb c) cs.

(** The condition each select box puts on a row of a table with labels
    [cs]: an equality when a selection is made and the column exists,
    nothing otherwise. *)
Definition cond_ano (cs : list string) (s : selecao) (r : list valor) : bool :=
  match ano_sel s with
  | Some a =>
      if tem cs "Ano do Censo"
      then valor_eqb (celula cs "Ano do Censo" r) a else true
  | None => true
  end.

Definition cond_sentinela (sentinela : valor) (c : string) (sel : valor)
    (cs : list string) (r : list valor) : bool :=
  if valor_neqb sel sentinela && tem cs c
  then valor_eqb (celula cs c r) sel else true.

Definition cond_organizacao cs s :=
  cond_sentinela Todas "Organização Acadêmica" (organizacao_sel s) cs.
Definition cond_tipo_rede cs s :=
  cond_sentinela Todas "Tipo de Rede" (tipo_rede_sel s) cs.
Definition cond_municipio cs s :=
  cond_sentinela Todos "Município" (municipio_sel s) cs.
Definition cond_instituicao cs s :=
  cond_sentinela Todas "Nome da IES" (instituicao_sel s) cs.

(** The conjunction of the five conditions. *)
Definition predicado (cs : list string) (s : selecao) (r : list valor)
    : bool :=
  cond_ano cs s r && cond_organizacao cs s r && cond_tipo_rede cs s r
  && cond_municipio cs s r && cond_instituicao cs s r.

(** A file whose census years are texts, two of them spelled like the
    sentinels. *)
Definition csv_anos_texto : csv :=
  mkCSV required_original_cols
    [ registro (VStr "Todas") (VInt 1) (VInt 1) (VInt 10) (VInt 5)
        "Brasília" "Universidade de Brasília" "X";
      registro (VStr "Todos") (VInt 3) (VInt 2) (VInt 20) (VInt 7)
        "Luziânia" "Faculdade de Luziânia" "X";
      registro (VStr "2022/1") (VInt 3) (VInt 2) (VInt 30) (VInt 9)
        "Formosa" "Faculdade de Formosa" "Y" ].

Definition df_anos_texto : DataFrame :=
  Eval vm_compute in
    match snd (carregar_dados nenhum_numero (amb_com csv_anos_texto)) with
    | Ok d => d
    | Levanta _ => DataFrame_vazio
    end.

Definition escolhas_todas (ano : valor) : escolhas :=
  mkEsc ano Todas Todas Todos Todas.

(** Two institutions of the same maintaining entity "X", with 5 and 7
    technical staff. *)
Definition csv_duas : csv :=
  mkCSV required_original_cols
    [ registro (VInt 2022) (VInt 1) (VInt 1) (VInt 10) (VInt 5)
        "Brasília" "Universidade de Brasília" "X";
      registro (VInt 2022) (VInt 3) (VInt 2) (VInt 20) (VInt 7)
        "Luziânia" "Faculdade de Luziânia" "X" ].

Definition df_duas : DataFrame :=
  Eval vm_compute in
    match snd (carregar_dados nenhum_numero (amb_com csv_duas)) with
    | Ok d => d
    | Levanta _ => DataFrame_vazio
    end.

(** A municipality and an institution that no row has together. *)
Definition escolhas_vazias : escolhas :=
  mkEsc (VInt 2022) Todas Todas (VStr "Brasília")
    (VStr "Faculdade de Luziânia").

Definition escolhas_luziania : escolhas :=
  mkEsc (VInt 2022) Todas Todas Todos (VStr "Faculdade de Luziânia").

(** Ascending order of the sums of a grouped result. *)
Definition soma_le (a b : list valor * list Z) : Prop :=
  (hd 0 (snd a) <= hd 0 (snd b))%Z.

(** ** Further sample inputs and page predicates *)

Definition eh_aviso (x : elemento) : bool :=
  match x with Warning _ => true | _ => false end.

Definition eh_dataframe (x : elemento) : bool :=
  match x with Dataframe _ => true | _ => false end.

(** How many elements of a page satisfy a test. *)
Definition conta (p : elemento -> bool) (l : list elemento) : nat :=
  List.length (filter p l).

(** A file with the required header and no record. *)
Definition csv_sem_registros : csv := mkCSV required_original_cols [].

(** A file with one more column, [OBS], and a year left blank. *)
Definition csv_com_obs : csv :=
  mkCSV (required_original_cols ++ ["OBS"])%list
    [ (registro VNaN (VInt 1) (VInt 1) (VInt 10) (VInt 5)
         "Brasília" "Universidade de Brasília" "X" ++ [VStr "nota"])%list ].

Definition df_com_obs : DataFrame :=
  Eval vm_compute in
    match snd (carregar_dados nenhum_numero (amb_com csv_com_obs)) with
    | Ok d => d
    | Levanta _ => DataFrame_vazio
    end.

(** The labels the loader rewrites: the count columns and the coded
    columns. *)
Definition colunas_normalizadas : list string :=
  (numeric_cols_to_fill
   ++ ["É Capital?"; "Organização Acadêmica"; "Tipo de Rede";
       "Categoria Administrativa"])%list.

(** Every pick of [s] is either left open or taken from the row [r0],
    which has a value there. *)
Definition tirada_da_linha (cs : list string) (s : selecao) (r0 : list valor)
    : Prop :=
  (ano_sel s = None
   \/ (ano_sel s = Some (celula cs "Ano do Censo" r0)
       /\ notna (celula cs "Ano do Censo" r0) = true))
  /\ (organizacao_sel s = Todas
      \/ (organizacao_sel s = celula cs "Organização Acadêmica" r0
          /\ notna (organizacao_sel s) = true))
  /\ (tipo_rede_sel s = Todas
      \/ (tipo_rede_sel s = celula cs "Tipo de Rede" r0
          /\ notna (tipo_rede_sel s) = true))
  /\ (municipio_sel s = Todos
      \/ (municipio_sel s = celula cs "Município" r0
          /\ notna (municipio_sel s) = true))
  /\ (instituicao_sel s = Todas
      \/ (instituicao_sel s = celula cs "Nome da IES" r0
          /\ notna (instituicao_sel s) = true)).

(** Some box holds the missing value, for a column that exists. *)
Definition escolhe_ausente (df : DataFrame) (s : selecao) : Prop :=
  (ano_sel s = Some VNaN /\ contem df "Ano do Censo" = true)
  \/ (organizacao_sel s = VNaN /\ contem df "Organização Acadêmica" = true)
  \/ (tipo_rede_sel s = VNaN /\ contem df "Tipo de Rede" = true)
  \/ (municipio_sel s = VNaN /\ contem df "Município" = true)
  \/ (instituicao_sel s = VNaN /\ contem df "Nome da IES" = true).

(** The table of the two institutions, the second without a year. *)
Definition df_ano_ausente : DataFrame :=
  mkDF ["Ano do Censo"; "Nome da IES"]
    [ [VInt 2022; VStr "A"]; [VNaN; VStr "B"] ].

(** The sum of a list of integers. *)
Definition soma_z (l : list Z) : Z := fold_right Z.add 0%Z l.

(** The total of the [j]-th summed column of a grouped result. *)
Definition total_da_medida (j : nat) (g : list (list valor * list Z)) : Z :=
  soma_z (map (fun kz => nth j (snd kz) 0%Z) g).

(** The rows that [groupby(keys)] does not drop: no NaN among the keys. *)
Definition com_chave (keys : list string) (df : DataFrame) : DataFrame :=
  seleciona (fun r => forallb notna (chave (columns df) keys r)) df.

(** The column tests of the six charts and of the summary table. *)
Definition guardas (f : DataFrame) : list bool :=
  [ contem f "Município" && contem f "Nome da IES";
    contem f "Mantenedora" && contem f "Total de Técnicos";
    contem_todas f ["Organização Acadêmica"; "Docentes Feminino";
                    "Docentes Masculino"];
    contem f "Categoria Administrativa";
    contem_todas f ["Organização Acadêmica"; "Categoria Administrativa";
                    "Tipo de Rede"; "Total de Livros Eletrônicos"];
    contem_todas f docentes_cols_for_plot ].

Definition guarda_tabela (f : DataFrame) : bool :=
  contem_todas f (group_cols ++ measures).

(** How many of the tests hold. *)
Definition quantas (l : list bool) : nat :=
  List.length (filter (fun b => b) l).

(** A loaded table stripped of the column 'Mantenedora'. *)
Definition df_sem_mantenedora : DataFrame :=
  mkDF (map (fun c => if String.eqb c "Mantenedora" then "M" else c)
          (columns df_duas))
       (rows df_duas).

(** Descending order of the counts of [value_counts]. *)
Definition conta_ge (a b : valor * nat) : Prop := snd b <= snd a.

Definition valor_igual (a b : valor) : bool :=
  if valor_eq_dec a b then true else false.

(** The sum of [f] over the rows of [l] whose key is [k]. *)
Definition parcela {A K : Type} (eqb : K -> K -> bool) (key : A -> K)
    (f : A -> Z) (k : K) (l : list A) : Z :=
  soma_z (map f (filter (fun r => eqb (key r) k) l)).

(** A loaded table with a blank municipality beside a named one. *)
Definition csv_municipio_em_branco : csv :=
  mkCSV required_original_cols
    [ registro (VInt 2022) (VInt 1) (VInt 1) (VInt 10) (VInt 5)
        "Brasília" "Universidade de Brasília" "X";
      [ VInt 2022; VInt 5300108; VNaN; VInt 1; VInt 3; VInt 2; VInt 1;
        VStr "Faculdade de Luziânia"; VStr "SG"; VInt 20; VInt 7; VStr "X";
        VInt 0; VInt 1; VInt 2; VInt 3; VInt 4;
        VInt 100; VInt 4; VInt 6 ] ].

Definition df_municipio_em_branco : DataFrame :=
  Eval vm_compute in
    match snd (carregar_dados nenhum_numero
                 (amb_com csv_municipio_em_branco)) with
    | Ok d => d
    | Levanta _ => DataFrame_vazio
    end.

(** * Properties *)

(** ** Labels and positions *)

Lemma contem_In (df : DataFrame) (c : string) :
  contem df c = true <-> In c (columns df).
Proof.
  unfold contem. rewrite existsb_exists. split.
  - intros [x [Hx He]]. apply String.eqb_eq in He. now subst.
  - intros H. exists c. split; [assumption | apply String.eqb_refl].
Qed.

Lemma posicao_Some (c : string) (cs : list string) (i : nat) :
  posicao c cs = Some i -> nth_error cs i = Some c.
Proof.
  revert i. induction cs as [|x cs IH]; intros i; simpl; [discriminate|].
  destruct (String.eqb_spec c x) as [->|Hne].
  - intros [= <-]. reflexivity.
  - destruct (posicao c cs) as [j|]; [|discriminate].
    intros [= <-]. simpl. now apply IH.
Qed.

Lemma posicao_In (c : string) (cs : list string) :
  In c cs -> exists i, posicao c cs = Some i.
Proof.
  induction cs as [|x cs IH]; simpl; [tauto|].
  intros H. destruct (String.eqb_spec c x) as [->|Hne]; [now exists O|].
  destruct H as [->|H]; [congruence|].
  destruct (IH H) as [j ->]. now exists (S j).
Qed.

Lemma posicao_None (c : string) (cs : list string) :
  ~ In c cs -> posicao c cs = None.
Proof.
  induction cs as [|x cs IH]; simpl; [reflexivity|].
  intros H. destruct (String.eqb_spec c x) as [->|Hne]; [tauto|].
  rewrite IH; tauto.
Qed.

Lemma posicao_inj (c c' : string) (cs : list string) (i : nat) :
  posicao c cs = Some i -> posicao c' cs = Some i -> c = c'.
Proof.
  intros H H'. apply posicao_Some in H. apply posicao_Some in H'. congruence.
Qed.

(** ** Updating one cell of a row *)

Lemma altera_length (i : nat) (f : valor -> valor) (r : list valor) :
  List.length (altera i f r) = List.length r.
Proof.
  revert i. induction r as [|v r IH]; intros [|i]; simpl; auto.
Qed.

Lemma altera_nth_eq (i : nat) (f : valor -> valor) (r : list valor) (d : valor) :
  i < List.length r -> nth i (altera i f r) d = f (nth i r d).
Proof.
  revert i. induction r as [|v r IH]; intros [|i]; simpl; try lia; auto.
  intros H. apply IH. lia.
Qed.

Lemma altera_nth_ne (i j : nat) (f : valor -> valor) (r : list valor) (d : valor) :
  i <> j -> nth j (altera i f r) d = nth j r d.
Proof.
  revert i j. induction r as [|v r IH]; intros [|i] [|j]; simpl; auto; try congruence.
Qed.

Lemma celula_altera (cs : list string) (col c : string) (i : nat)
    (f : valor -> valor) (r : list valor) :
  posicao col cs = Some i -> In c cs ->
  List.length r = List.length cs ->
  celula cs c (altera i f r)
  = if String.eqb c col then f (celula cs c r) else celula cs c r.
Proof.
  intros Hi Hc Hl. unfold celula.
  destruct (posicao_In c cs Hc) as [j Hj]. rewrite Hj.
  destruct (String.eqb_spec c col) as [->|Hne].
  - assert (j = i) by congruence. subst j.
    apply altera_nth_eq. rewrite Hl.
    apply posicao_Some in Hi. apply nth_error_Some. congruence.
  - apply altera_nth_ne. intros ->. apply Hne. eapply posicao_inj; eauto.
Qed.

(** ** Normalisation steps *)

Lemma aplica_em_Ok (col : string) (f : valor -> valor) (e : excecao)
    (df df' : DataFrame) :
  aplica_em col f e df = Ok df' ->
  columns df' = columns df
  /\ rows df' = map (linha_do_passo (columns df) (col, f, e)) (rows df)
  /\ (In col (columns df) -> serie_unica df col = true).
Proof.
  unfold aplica_em, linha_do_passo, rotulo_do_passo. simpl.
  destruct (contem df col) eqn:Hc.
  - destruct (serie_unica df col) eqn:Hu; [|discriminate].
    intros [= <-]. unfold transforma_coluna.
    apply contem_In in Hc. destruct (posicao_In _ _ Hc) as [i Hi].
    rewrite Hi. simpl. auto.
  - intros [= <-].
    assert (Hn : ~ In col (columns df)).
    { intros H. apply contem_In in H. congruence. }
    rewrite (posicao_None _ _ Hn). rewrite map_id. tauto.
Qed.

Lemma linha_do_passo_length (cs : list string) (p : passo) (r : list valor) :
  List.length (linha_do_passo cs p r) = List.length r.
Proof.
  unfold linha_do_passo. destruct (posicao _ cs); [apply altera_length | reflexivity].
Qed.

Lemma linha_do_passo_celula (cs : list string) (col : string)
    (f : valor -> valor) (e : excecao) (c : string) (r : list valor) :
  In c cs -> List.length r = List.length cs ->
  celula cs c (linha_do_passo cs (col, f, e) r)
  = if String.eqb c col then f (celula cs c r) else celula cs c r.
Proof.
  intros Hc Hl. unfold linha_do_passo, rotulo_do_passo. simpl.
  destruct (posicao col cs) as [i|] eqn:Hi.
  - now apply celula_altera.
  - destruct (String.eqb_spec c col) as [->|Hne]; [|reflexivity].
    destruct (posicao_In _ _ Hc) as [j Hj]. congruence.
Qed.

Lemma efeito_fora (ps : list passo) (c : string) (v : valor) :
  ~ In c (map rotulo_do_passo ps) -> efeito ps c v = v.
Proof.
  induction ps as [|[[col f] e] ps IH]; simpl; [reflexivity|].
  intros H. destruct (String.eqb_spec c col) as [->|Hne]; [tauto|].
  apply IH. tauto.
Qed.

(** A successful run of steps with distinct labels keeps the labels,
    rewrites the rows one by one, and applies to each cell the function of
    the step that names its column. *)
Lemma executa_Ok (ps : list passo) :
  NoDup (map rotulo_do_passo ps) ->
  forall df df', executa ps df = Ok df' ->
  columns df' = columns df
  /\ (forall p, In p ps -> In (rotulo_do_passo p) (columns df) ->
        serie_unica df (rotulo_do_passo p) = true)
  /\ exists g,
       rows df' = map g (rows df)
       /\ forall r, List.length r = List.length (columns df) ->
            List.length (g r) = List.length r
            /\ forall c, In c (columns df) ->
                 celula (columns df) c (g r)
                 = efeito ps c (celula (columns df) c r).
Proof.
  induction ps as [|[[col f] e] ps IH]; intros Hnd df df'; simpl.
  - intros [= <-]. repeat split; [intros p []|].
    exists (fun r => r). rewrite map_id. auto.
  - inversion Hnd as [|? ? Hnotin Hnd']; subst.
    destruct (aplica_em col f e df) as [d1|] eqn:H1; simpl; [|discriminate].
    intros H2. apply aplica_em_Ok in H1. destruct H1 as (Hc1 & Hr1 & Hu1).
    destruct (IH Hnd' _ _ H2) as (Hc2 & Hu2 & g2 & Hr2 & Hg2).
    split; [congruence|]. split.
    + intros p [<-|Hp] Hin; [now apply Hu1|].
      specialize (Hu2 p Hp). rewrite Hc1 in Hu2. specialize (Hu2 Hin).
      unfold serie_unica in *. now rewrite Hc1 in Hu2.
    + exists (fun r => g2 (linha_do_passo (columns df) (col, f, e) r)).
      split; [rewrite Hr2, Hr1, map_map; reflexivity|].
      intros r Hl. rewrite Hc1 in Hg2.
      destruct (Hg2 (linha_do_passo (columns df) (col, f, e) r)) as [Hl2 Hcel].
      { now rewrite linha_do_passo_length. }
      split; [now rewrite Hl2, linha_do_passo_length|].
      intros c Hc. rewrite (Hcel c Hc), linha_do_passo_celula by assumption.
      destruct (String.eqb_spec c col) as [->|Hne]; [|reflexivity].
      now apply efeito_fora.
Qed.

Lemma executa_app (a b : list passo) (df : DataFrame) :
  executa (a ++ b) df = executa a df >>= executa b.
Proof.
  revert df. induction a as [|[[col f] e] a IH]; intros df; simpl; [reflexivity|].
  destruct (aplica_em col f e df); simpl; [apply IH | reflexivity].
Qed.

Lemma preenche_numericas_executa (parse : string -> option Z)
    (cols : list string) (df : DataFrame) :
  preenche_numericas parse cols df
  = executa (map (fun c => (c, coage parse, erro_to_numeric)) cols) df.
Proof.
  revert df. induction cols as [|c cols IH]; intros df; simpl; [reflexivity|].
  destruct (aplica_em c (coage parse) erro_to_numeric df); simpl; auto.
Qed.

Lemma mapeia_categoricas_executa (df : DataFrame) :
  mapeia_categoricas df = executa passos_categoricos df.
Proof.
  unfold mapeia_categoricas, passos_categoricos. simpl.
  destruct (aplica_em _ _ _ df) as [d1|]; simpl; [|reflexivity].
  destruct (aplica_em _ _ _ d1) as [d2|]; simpl; [|reflexivity].
  destruct (aplica_em _ _ _ d2) as [d3|]; simpl; [|reflexivity].
  destruct (aplica_em _ _ _ d3) as [d4|]; simpl; reflexivity.
Qed.

Lemma normalizacao_executa (parse : string -> option Z) (df : DataFrame) :
  preenche_numericas parse numeric_cols_to_fill df >>= mapeia_categoricas
  = executa (passos parse) df.
Proof.
  unfold passos, passos_numericos. rewrite executa_app, preenche_numericas_executa.
  destruct (executa _ df); simpl; [apply mapeia_categoricas_executa | reflexivity].
Qed.

Lemma passos_NoDup (parse : string -> option Z) :
  NoDup (map rotulo_do_passo (passos parse)).
Proof.
  unfold passos, passos_numericos. rewrite map_app, map_map. simpl.
  repeat (constructor; [simpl; intros H;
    repeat (destruct H as [H|H]; [discriminate H|]); exact H|]).
  constructor.
Qed.

(** ** Reading and renaming *)

Lemma read_csv_retangular (a : estado_arquivo) (df : DataFrame) :
  read_csv a = Ok df -> retangular df.
Proof.
  destruct a as [|e|c]; simpl; try discriminate.
  destruct (existsb _ (registros c)) eqn:He; [discriminate|].
  intros [= <-]. unfold retangular. simpl.
  apply Forall_forall. intros r Hr. apply in_map_iff in Hr.
  destruct Hr as [r0 [<- Hr0]]. unfold completa.
  rewrite length_app, repeat_length.
  assert (Hlt : Nat.ltb (List.length (cabecalho c)) (List.length r0) = false).
  { destruct (Nat.ltb _ _) eqn:E; [|reflexivity].
    assert (existsb (fun r => Nat.ltb (List.length (cabecalho c)) (List.length r))
              (registros c) = true) by (apply existsb_exists; eauto).
    congruence. }
  apply Nat.ltb_ge in Hlt. lia.
Qed.

Lemma count_occ_map_In (ren : string -> string) (c : string) (cs : list string) :
  In c cs -> 1 <= count_occ string_dec (map ren cs) (ren c).
Proof.
  intros H. apply (in_map ren) in H.
  apply (count_occ_In string_dec) in H. lia.
Qed.

(** A source label keeps its position under the display label when the
    display label is not repeated. *)
Lemma posicao_rename (ren : string -> string) (c : string) (cs : list string)
    (i : nat) :
  posicao c cs = Some i ->
  count_occ string_dec (map ren cs) (ren c) <= 1 ->
  posicao (ren c) (map ren cs) = Some i.
Proof.
  revert i. induction cs as [|x cs IH]; intros i; simpl; [discriminate|].
  destruct (String.eqb_spec c x) as [->|Hne].
  - intros [= <-] _. now rewrite String.eqb_refl.
  - destruct (posicao c cs) as [j|] eqn:Hj; [|discriminate].
    intros [= <-] Hcnt.
    assert (Hin : In c cs).
    { apply posicao_Some in Hj. eapply nth_error_In; eauto. }
    pose proof (count_occ_map_In ren c cs Hin) as H1.
    destruct (string_dec (ren x) (ren c)) as [Heq|Hneq]; [lia|].
    destruct (String.eqb_spec (ren c) (ren x)) as [E|_]; [congruence|].
    now rewrite (IH j).
Qed.

Lemma celula_rename (d : list (string * string)) (df : DataFrame)
    (c : string) (r : list valor) :
  In c (columns df) ->
  serie_unica (rename d df) (renomeia_rotulo d c) = true ->
  celula (columns (rename d df)) (renomeia_rotulo d c) r
  = celula (columns df) c r.
Proof.
  intros Hin Hu. unfold celula. simpl.
  destruct (posicao_In _ _ Hin) as [i Hi].
  unfold serie_unica in Hu. simpl in Hu. apply Nat.leb_le in Hu.
  now rewrite (posicao_rename _ _ _ _ Hi Hu), Hi.
Qed.

Lemma missing_cols_nil (df : DataFrame) (c : string) :
  missing_cols df = [] -> In c required_original_cols -> In c (columns df).
Proof.
  unfold missing_cols. intros Hm Hc.
  destruct (contem df c) eqn:E; [now apply contem_In|].
  assert (In c (filter (fun col => negb (contem df col)) required_original_cols)).
  { apply filter_In. split; [assumption | now rewrite E]. }
  rewrite Hm in H. destruct H.
Qed.

Lemma missing_cols_In (df : DataFrame) (c : string) :
  In c (missing_cols df)
  <-> In c required_original_cols /\ ~ In c (columns df).
Proof.
  unfold missing_cols. rewrite filter_In, <- contem_In.
  destruct (contem df c); simpl; intuition congruence.
Qed.

Lemma Forall2_map_r {A B : Type} (R : A -> B -> Prop) (g : A -> B) (l : list A) :
  (forall x, In x l -> R x (g x)) -> Forall2 R l (map g l).
Proof.
  induction l as [|x l IH]; simpl; intros H; constructor; auto.
Qed.

(** ** The loader *)

Section PropriedadesDaCarga.

Variable parse : string -> option Z.

(** A non-empty table comes out of the loader only along the path that
    read the file, found every required label and ran every step. *)
Lemma carregar_dados_sucesso (amb : ambiente) (ms : list mensagem)
    (df : DataFrame) :
  carregar_dados parse amb = (ms, Ok df) -> empty df = false ->
  exists df0,
    read_csv (arquivo amb (csv_file_path_absolute amb)) = Ok df0
    /\ missing_cols df0 = []
    /\ executa (passos parse) (rename rename_map df0) = Ok df.
Proof.
  unfold carregar_dados, corpo.
  destruct (negb (exists_ amb _)).
  { intros [= _ <-]. discriminate. }
  destruct (read_csv _) as [df0|e] eqn:Hr.
  2:{ intros [= _ <-]. discriminate. }
  destruct (missing_cols df0) eqn:Hm.
  2:{ intros [= _ <-]. discriminate. }
  rewrite normalizacao_executa.
  destruct (executa _ _) as [d|e] eqn:He.
  2:{ intros [= _ <-]. discriminate. }
  intros [= _ <-] _. exists df0. auto.
Qed.

(** After a successful run of the steps on the renamed table, the cell
    under the display label of a source column is the step's function
    applied to the source cell, row by row. *)
Lemma normalizado_celula (df0 df : DataFrame) :
  retangular df0 ->
  executa (passos parse) (rename rename_map df0) = Ok df ->
  Forall2 (fun r0 r =>
             forall o, In o (columns df0) ->
               In (renomeia_rotulo rename_map o)
                  (map rotulo_do_passo (passos parse)) ->
               celula (columns df) (renomeia_rotulo rename_map o) r
               = efeito (passos parse) (renomeia_rotulo rename_map o)
                   (celula (columns df0) o r0))
          (rows df0) (rows df).
Proof.
  intros Hret Hex.
  destruct (executa_Ok _ (passos_NoDup parse) _ _ Hex) as (Hc & Hu & g & Hr & Hg).
  rewrite Hr. change (rows (rename rename_map df0)) with (rows df0).
  apply Forall2_map_r. intros r0 Hr0 o Ho Hn.
  set (n := renomeia_rotulo rename_map o) in *.
  assert (Hnin : In n (columns (rename rename_map df0))).
  { unfold rename, n. cbn [columns]. now apply in_map. }
  assert (Hun : serie_unica (rename rename_map df0) n = true).
  { apply in_map_iff in Hn. destruct Hn as [p [Hp Hin]].
    rewrite <- Hp. apply Hu; [assumption | now rewrite Hp]. }
  assert (Hl : List.length r0 = List.length (columns (rename rename_map df0))).
  { unfold rename. cbn [columns]. rewrite length_map. unfold retangular in Hret.
    rewrite Forall_forall in Hret. now apply Hret. }
  destruct (Hg r0 Hl) as [_ Hcel].
  rewrite Hc, (Hcel n Hnin).
  replace (celula (columns (rename rename_map df0)) n r0)
    with (celula (columns df0) o r0); [reflexivity|].
  symmetry. now apply celula_rename.
Qed.

Lemma rotula_valido (d : list (Z * string)) (v : valor) :
  rotulo_valido d (rotula d v).
Proof.
  unfold rotulo_valido, rotula.
  destruct v as [z| |]; simpl; try (exists nao_definido; now auto).
  destruct (procura z d) as [l|] eqn:Hp; simpl; [|exists nao_definido; now auto].
  exists l. split; [reflexivity|]. right.
  induction d as [|[k l'] d IH]; simpl in *; [discriminate|].
  destruct (Z.eqb z k); [left; congruence | right; auto].
Qed.

Lemma coage_numero (v : valor) : exists z, coage parse v = VInt z.
Proof.
  unfold coage. destruct v as [z|s|]; simpl; eauto.
  destruct (parse s); simpl; eauto.
Qed.

(** C1. Every coded categorical column of a loaded table holds, row by row,
    the label that its lookup table gives to the source code, and the
    sentinel 'Não Definido' for every cell that is not a key of the table
    (an unlisted code such as 7 for the academic organization, a text, a
    missing value); so every such cell is a label of the closed set of its
    column or the sentinel, never a raw code.  The labels are those of the
    four tables: 1 -> Sim, 0 -> Não; 1 -> Universidade, ..., 99 -> Outra;
    1 -> Pública, 2 -> Privada; 1 -> Pública Federal, ..., 8 -> Privada Com
    Fins Lucrativos. *)
Theorem carregar_dados_categorias (amb : ambiente) (ms : list mensagem)
    (df : DataFrame) :
  carregar_dados parse amb = (ms, Ok df) -> empty df = false ->
  (exists df0,
     read_csv (arquivo amb (csv_file_path_absolute amb)) = Ok df0
     /\ Forall2 (fun r0 r =>
                  forall o n d, In (o, n, d) colunas_categoricas ->
                    celula (columns df) n r
                    = rotula d (celula (columns df0) o r0)
                    /\ rotulo_valido d (celula (columns df) n r))
               (rows df0) (rows df))
  /\ (forall d z l, procura z d = Some l -> rotula d (VInt z) = VStr l)
  /\ (forall d z, procura z d = None -> rotula d (VInt z) = VStr nao_definido)
  /\ (forall d s, rotula d (VStr s) = VStr nao_definido)
  /\ (forall d, rotula d VNaN = VStr nao_definido)
  /\ rotula organizacao_map (VInt 7) = VStr nao_definido
  /\ map (rotula capital_map) [VInt 1; VInt 0] = [VStr "Sim"; VStr "Não"]
  /\ map (rotula organizacao_map)
         [VInt 1; VInt 2; VInt 3; VInt 4; VInt 5; VInt 99]
     = [ VStr "Universidade"; VStr "Centro Universitário"; VStr "Faculdade";
         VStr "Instituto Federal de Educação, Ciência e Tecnologia (IF)";
         VStr "Centro Federal de Educação Tecnológica (CEFET)";
         VStr "Outra" ]
  /\ map (rotula rede_map) [VInt 1; VInt 2]
     = [VStr "Pública"; VStr "Privada"]
  /\ map (rotula categoria_map)
         [VInt 1; VInt 2; VInt 3; VInt 4; VInt 5; VInt 6; VInt 7; VInt 8]
     = [ VStr "Pública Federal"; VStr "Pública Estadual";
         VStr "Pública Municipal"; VStr "Privada Comunitária";
         VStr "Privada Confessional"; VStr "Privada Filantrópica";
         VStr "Privada Sem Fins Lucrativos";
         VStr "Privada Com Fins Lucrativos" ]
  /\ (forall d z, ~ In z (map fst d) ->
        rotula d (VInt z) = VStr nao_definido).
Proof.
  intros Hload Hne. split.
  - destruct (carregar_dados_sucesso _ _ _ Hload Hne) as (df0 & Hr & Hm & Hex).
    exists df0. split; [assumption|].
    pose proof (normalizado_celula df0 df (read_csv_retangular _ _ Hr) Hex) as HF.
    eapply Forall2_impl; [|exact HF]. clear HF.
    intros r0 r H o n d Hin.
    assert (Heq : celula (columns df) n r = rotula d (celula (columns df0) o r0)).
    { simpl in Hin.
      repeat (destruct Hin as [Hin|Hin];
              [inversion Hin; subst; clear Hin;
               match goal with
               | |- _ = rotula _ (celula _ ?src _) =>
                   refine (H src (missing_cols_nil df0 src Hm _) _);
                   simpl; tauto
               end|]).
      destruct Hin. }
    split; [assumption|]. rewrite Heq. apply rotula_valido.
  - split; [|split; [|split; [|split; [|split; [|split; [|split; [|split;
      [|split]]]]]]]]; try reflexivity.
    + intros d z l Hp. unfold rotula. simpl. now rewrite Hp.
    + intros d z Hp. unfold rotula. simpl. now rewrite Hp.
    + intros d z Hz. unfold rotula. simpl.
      assert (Hp : procura z d = None).
      { induction d as [|[k l] d IH]; simpl in *; [reflexivity|].
        destruct (Z.eqb_spec z k) as [->|_]; [tauto|]. apply IH. tauto. }
      now rewrite Hp.
Qed.

(** C2. Every count column of a loaded table holds, row by row, the
    coercion of the source cell: a number is kept as it is (10 stays 10), a
    missing cell or a text that is not a number becomes 0; the coercion is a
    total function, and the cell is always a number, never NaN.  The sign of
    a number is kept too, so the cell is non-negative whenever the number
    read is. *)
Theorem carregar_dados_numericas (amb : ambiente) (ms : list mensagem)
    (df : DataFrame) :
  carregar_dados parse amb = (ms, Ok df) -> empty df = false ->
  (exists df0,
     read_csv (arquivo amb (csv_file_path_absolute amb)) = Ok df0
     /\ Forall2 (fun r0 r =>
                  forall o n, In (o, n) colunas_numericas ->
                    celula (columns df) n r
                    = coage parse (celula (columns df0) o r0)
                    /\ exists z, celula (columns df) n r = VInt z)
               (rows df0) (rows df))
  /\ (forall z, coage parse (VInt z) = VInt z)
  /\ coage parse (VInt 10) = VInt 10
  /\ coage parse VNaN = VInt 0
  /\ (forall s, parse s = None -> coage parse (VStr s) = VInt 0)
  /\ (forall s z, parse s = Some z -> coage parse (VStr s) = VInt z)
  /\ (forall v z, to_numeric parse v = VInt z ->
        coage parse v = VInt z /\ ((0 <= numero (coage parse v))%Z <-> (0 <= z)%Z)).
Proof.
  intros Hload Hne. split.
  - destruct (carregar_dados_sucesso _ _ _ Hload Hne) as (df0 & Hr & Hm & Hex).
    exists df0. split; [assumption|].
    pose proof (normalizado_celula df0 df (read_csv_retangular _ _ Hr) Hex) as HF.
    eapply Forall2_impl; [|exact HF]. clear HF.
    intros r0 r H o n Hin.
    assert (Heq : celula (columns df) n r = coage parse (celula (columns df0) o r0)).
    { simpl in Hin.
      repeat (destruct Hin as [Hin|Hin];
              [inversion Hin; subst; clear Hin;
               match goal with
               | |- _ = coage _ (celula _ ?src _) =>
                   refine (H src (missing_cols_nil df0 src Hm _) _);
                   simpl; tauto
               end|]).
      destruct Hin. }
    split; [assumption|]. rewrite Heq. apply coage_numero.
  - repeat split; try reflexivity.
    + intros s Hs. unfold coage. simpl. now rewrite Hs.
    + intros s z Hs. unfold coage. simpl. now rewrite Hs.
    + unfold coage. now rewrite H.
    + unfold coage. now rewrite H.
    + unfold coage. now rewrite H.
Qed.

(** C3. When the file is read and some required label is not in its header
    (labels compared exactly, case included), the loader returns the empty
    table and shows, after the trace of the path, one error message and no
    other: the one built from the list of all missing labels joined by
    commas. *)
Theorem carregar_dados_colunas_ausentes (amb : ambiente) (df0 : DataFrame) :
  read_csv (arquivo amb (csv_file_path_absolute amb)) = Ok df0 ->
  missing_cols df0 <> [] ->
  carregar_dados parse amb
  = ([MInfo (msg_tentando (csv_file_path_absolute amb));
      MError (msg_colunas (missing_cols df0))], Ok DataFrame_vazio)
  /\ filter eh_erro (fst (carregar_dados parse amb))
     = [MError (msg_colunas (missing_cols df0))]
  /\ empty DataFrame_vazio = true
  /\ (forall c, In c (missing_cols df0)
               <-> In c required_original_cols /\ ~ In c (columns df0))
  /\ msg_colunas (missing_cols df0)
     = "Erro: As seguintes colunas essenciais não foram encontradas no arquivo CSV: "
       ++ String.concat ", " (missing_cols df0) ++ "."
       ++ " Verifique se o arquivo está correto e se os nomes das colunas correspondem (sensível a maiúsculas/minúsculas).".
Proof.
  intros Hr Hm.
  assert (Hc : carregar_dados parse amb
               = ([MInfo (msg_tentando (csv_file_path_absolute amb));
                   MError (msg_colunas (missing_cols df0))], Ok DataFrame_vazio)).
  { unfold carregar_dados, corpo, exists_.
    destruct (arquivo amb (csv_file_path_absolute amb)) as [|e|c] eqn:Ha;
      [discriminate Hr| |]; cbn [negb]; rewrite Hr;
      destruct (missing_cols df0); [congruence|reflexivity|congruence|reflexivity]. }
  rewrite Hc. split; [reflexivity|]. split; [reflexivity|].
  split; [reflexivity|]. split; [intros c; apply missing_cols_In|].
  unfold msg_colunas, join. reflexivity.
Qed.

(** C9. The loader always returns a table and never raises: when the file
    is absent, when required labels are missing, and when the body raises
    (the reader fails, or a step is handed a frame), the table returned is
    the empty one and an error message has been shown. *)
Theorem carregar_dados_nao_levanta (amb : ambiente) :
  exists ms df,
    carregar_dados parse amb = (ms, Ok df)
    /\ (exists_ amb (csv_file_path_absolute amb) = false ->
        df = DataFrame_vazio /\ In (MError msg_nao_encontrado) ms)
    /\ (forall df0,
          read_csv (arquivo amb (csv_file_path_absolute amb)) = Ok df0 ->
          missing_cols df0 <> [] ->
          df = DataFrame_vazio /\ In (MError (msg_colunas (missing_cols df0))) ms)
    /\ (forall e, snd (corpo parse amb) = Levanta e ->
          df = DataFrame_vazio /\ In (MError (msg_inesperado e)) ms
          /\ In (MInfo msg_verifique) ms).
Proof.
  unfold carregar_dados.
  destruct (corpo parse amb) as [ms0 [d|e]] eqn:Hc.
  - exists ms0, d. split; [reflexivity|]. split; [|split].
    + intros He. unfold corpo in Hc. rewrite He in Hc. cbn [negb] in Hc.
      injection Hc as <- <-. split; [reflexivity|]. simpl. tauto.
    + intros df0 Hr Hm. unfold corpo in Hc.
      destruct (negb (exists_ amb _)) eqn:He.
      { unfold exists_ in He.
        destruct (arquivo amb (csv_file_path_absolute amb)); discriminate. }
      rewrite Hr in Hc. destruct (missing_cols df0); [congruence|].
      injection Hc as <- <-. split; [reflexivity|]. simpl. tauto.
    + simpl. discriminate.
  - exists (ms0 ++ [MError (msg_inesperado e); MInfo msg_verifique])%list,
      DataFrame_vazio.
    split; [reflexivity|]. split; [|split].
    + intros He. unfold corpo in Hc. rewrite He in Hc. discriminate.
    + intros df0 Hr Hm. unfold corpo in Hc.
      destruct (negb (exists_ amb _)); [discriminate|].
      rewrite Hr in Hc. destruct (missing_cols df0); [congruence|discriminate].
    + simpl. intros e' [= <-]. split; [reflexivity|].
      split; apply in_or_app; right; simpl; tauto.
Qed.

End PropriedadesDaCarga.

(** ** Loader: sample runs *)

Example carregar_dados_cenario :
  exists ms r,
    carregar_dados nenhum_numero (amb_com csv_cenario) = (ms, Ok df_cenario)
    /\ rows df_cenario = [r]
    /\ celula (columns df_cenario) "Ano do Censo" r = VInt 2022
    /\ celula (columns df_cenario) "Tipo de Rede" r = VStr "Pública"
    /\ celula (columns df_cenario) "Total de Docentes" r = VInt 10
    /\ celula (columns df_cenario) "Organização Acadêmica" r
       = VStr "Não Definido".
Proof.
  eexists. eexists. repeat split; vm_compute; reflexivity.
Qed.

Example carregar_dados_arquivo_ausente :
  carregar_dados nenhum_numero (mkAmb "/app" (fun _ => Ausente))
  = ([MInfo (msg_tentando "/app/table_EDUCACAO_SUPERIOR_RIDE_DF.csv");
      MError msg_nao_encontrado;
      MError (msg_coloque "/app/table_EDUCACAO_SUPERIOR_RIDE_DF.csv")],
     Ok DataFrame_vazio).
Proof. vm_compute. reflexivity. Qed.

(** The body does raise on some inputs: a record that is too long makes the
    reader raise, a repeated display label makes [pd.to_numeric] raise. *)
Example corpo_levanta :
  snd (corpo nenhum_numero (amb_com csv_campo_a_mais))
  = Levanta (ParserError "Error tokenizing data")
  /\ snd (corpo nenhum_numero (amb_com csv_rotulo_repetido))
     = Levanta erro_to_numeric
  /\ snd (carregar_dados nenhum_numero (amb_com csv_rotulo_repetido))
     = Ok DataFrame_vazio.
Proof. repeat split; vm_compute; reflexivity. Qed.

Lemma carregar_dados_categorias_witness :
  carregar_dados nenhum_numero (amb_com csv_cenario)
  = (fst carga_cenario, Ok df_cenario)
  /\ empty df_cenario = false
  /\ rotula organizacao_map (VInt 7) = VStr nao_definido
  /\ exists df0,
       read_csv (arquivo (amb_com csv_cenario)
                   (csv_file_path_absolute (amb_com csv_cenario))) = Ok df0
       /\ Forall2 (fun r0 r =>
                    forall o n d, In (o, n, d) colunas_categoricas ->
                      celula (columns df_cenario) n r
                      = rotula d (celula (columns df0) o r0)
                      /\ rotulo_valido d (celula (columns df_cenario) n r))
                 (rows df0) (rows df_cenario).
Proof.
  assert (H1 : carregar_dados nenhum_numero (amb_com csv_cenario)
               = (fst carga_cenario, Ok df_cenario))
    by (vm_compute; reflexivity).
  assert (H2 : empty df_cenario = false) by reflexivity.
  split; [exact H1|]. split; [exact H2|].
  destruct (carregar_dados_categorias nenhum_numero _ _ _ H1 H2)
    as (Hex & _ & _ & _ & _ & H7 & _).
  split; [exact H7 | exact Hex].
Defined.

Lemma carregar_dados_numericas_witness :
  carregar_dados nenhum_numero (amb_com csv_cenario)
  = (fst carga_cenario, Ok df_cenario)
  /\ empty df_cenario = false
  /\ exists df0,
       read_csv (arquivo (amb_com csv_cenario)
                   (csv_file_path_absolute (amb_com csv_cenario))) = Ok df0
       /\ Forall2 (fun r0 r =>
                    forall o n, In (o, n) colunas_numericas ->
                      celula (columns df_cenario) n r
                      = coage nenhum_numero (celula (columns df0) o r0)
                      /\ exists z, celula (columns df_cenario) n r = VInt z)
                 (rows df0) (rows df_cenario).
Proof.
  assert (H1 : carregar_dados nenhum_numero (amb_com csv_cenario)
               = (fst carga_cenario, Ok df_cenario))
    by (vm_compute; reflexivity).
  assert (H2 : empty df_cenario = false) by reflexivity.
  split; [exact H1|]. split; [exact H2|].
  apply (carregar_dados_numericas nenhum_numero _ _ _ H1 H2).
Defined.

(** A negative count read from the file is still negative in the loaded
    table: the count columns are not non-negative for every file. *)
Lemma carregar_dados_numericas_negativo :
  ~ (forall parse amb ms df r n,
       carregar_dados parse amb = (ms, Ok df) ->
       In r (rows df) -> In n numeric_cols_to_fill ->
       exists z, celula (columns df) n r = VInt z /\ (0 <= z)%Z).
Proof.
  intros H.
  destruct (H nenhum_numero (amb_com csv_negativo)
              (fst (carregar_dados nenhum_numero (amb_com csv_negativo)))
              df_negativo (hd [] (rows df_negativo)) "Total de Docentes")
    as (z & Hz & Hpos).
  - vm_compute. reflexivity.
  - vm_compute. left. reflexivity.
  - vm_compute. left. reflexivity.
  - vm_compute in Hz. injection Hz as <-. lia.
Qed.

Lemma carregar_dados_colunas_ausentes_witness :
  missing_cols (mkDF (cabecalho csv_sem_colunas) [])
  = ["QT_DOC_TOTAL"; "QT_TEC_TOTAL"]
  /\ filter eh_erro (fst (carregar_dados nenhum_numero (amb_com csv_sem_colunas)))
     = [MError (msg_colunas ["QT_DOC_TOTAL"; "QT_TEC_TOTAL"])]
  /\ snd (carregar_dados nenhum_numero (amb_com csv_sem_colunas))
     = Ok DataFrame_vazio.
Proof.
  assert (Hr : read_csv (arquivo (amb_com csv_sem_colunas)
                           (csv_file_path_absolute (amb_com csv_sem_colunas)))
               = Ok (mkDF (cabecalho csv_sem_colunas) []))
    by (vm_compute; reflexivity).
  assert (Hm : missing_cols (mkDF (cabecalho csv_sem_colunas) [])
               = ["QT_DOC_TOTAL"; "QT_TEC_TOTAL"])
    by (vm_compute; reflexivity).
  assert (Hne : missing_cols (mkDF (cabecalho csv_sem_colunas) []) <> [])
    by (rewrite Hm; discriminate).
  destruct (carregar_dados_colunas_ausentes nenhum_numero _ _ Hr Hne)
    as (Hc & Hf & _).
  split; [exact Hm|]. split.
  - rewrite Hf, Hm. reflexivity.
  - rewrite Hc. reflexivity.
Defined.

(** ** Filters *)

Lemma filter_filter {A : Type} (p q : A -> bool) (l : list A) :
  filter q (filter p l) = filter (fun x => p x && q x) l.
Proof.
  induction l as [|x l IH]; simpl; [reflexivity|].
  destruct (p x); simpl; [destruct (q x)|]; now rewrite IH.
Qed.

Lemma filter_true {A : Type} (l : list A) : filter (fun _ => true) l = l.
Proof. induction l as [|x l IH]; simpl; congruence. Qed.

Lemma filter_idem {A : Type} (p : A -> bool) (l : list A) :
  filter p (filter p l) = filter p l.
Proof.
  rewrite filter_filter. apply filter_ext. intros x. now destruct (p x).
Qed.

(** One optional equality filter is a row filter by its condition. *)
Lemma filtro_sentinela (sentinela sel : valor) (c : string) (df : DataFrame) :
  (if valor_neqb sel sentinela && contem df c
   then filtra_igual c sel df else df)
  = mkDF (columns df)
      (filter (cond_sentinela sentinela c sel (columns df)) (rows df)).
Proof.
  unfold cond_sentinela, tem, contem, filtra_igual, seleciona.
  destruct (valor_neqb sel sentinela && existsb (String.eqb c) (columns df)).
  - reflexivity.
  - rewrite filter_true. now destruct df.
Qed.

Lemma filtro_ano (s : selecao) (df : DataFrame) :
  match ano_sel s with
  | Some a =>
      if contem df "Ano do Censo" then filtra_igual "Ano do Censo" a df
      else df
  | None => df
  end
  = mkDF (columns df) (filter (cond_ano (columns df) s) (rows df)).
Proof.
  unfold cond_ano, tem, contem, filtra_igual, seleciona.
  destruct (ano_sel s) as [a|].
  - destruct (existsb _ (columns df)); [reflexivity|].
    rewrite filter_true. now destruct df.
  - rewrite filter_true. now destruct df.
Qed.

(** The block that builds [df_filtrado] keeps the labels and keeps, in
    table order, the rows that satisfy the five conditions. *)
Lemma aplicar_filtros_predicado (df : DataFrame) (s : selecao) :
  aplicar_filtros df s
  = mkDF (columns df) (filter (predicado (columns df) s) (rows df)).
Proof.
  unfold aplicar_filtros. cbv zeta.
  rewrite filtro_ano.
  rewrite (filtro_sentinela Todas (organizacao_sel s)). cbn [columns rows].
  rewrite (filtro_sentinela Todas (tipo_rede_sel s)). cbn [columns rows].
  rewrite (filtro_sentinela Todos (municipio_sel s)). cbn [columns rows].
  rewrite (filtro_sentinela Todas (instituicao_sel s)). cbn [columns rows].
  rewrite !filter_filter. f_equal. apply filter_ext. intros r.
  unfold predicado, cond_organizacao, cond_tipo_rede, cond_municipio,
    cond_instituicao.
  now rewrite !andb_assoc.
Qed.

Lemma valor_eqb_eq (a b : valor) :
  valor_eqb a b = true -> a = b /\ notna a = true.
Proof.
  destruct a, b; simpl; try discriminate.
  - intros H. apply Z.eqb_eq in H. now subst.
  - intros H. apply String.eqb_eq in H. now subst.
Qed.

Lemma valor_eqb_refl (a : valor) : notna a = true -> valor_eqb a a = true.
Proof.
  destruct a; simpl; try discriminate; intros _.
  - apply Z.eqb_refl.
  - apply String.eqb_refl.
Qed.

(** C4, as the script has it.  The filtered subset keeps exactly the rows
    that satisfy every condition in force.  For the academic organization,
    the network type, the municipality and the institution the condition is
    the equality with the selection, in force when the selection is not the
    sentinel ('Todas', 'Todos') and the column exists; the sentinel matches
    every row.  The census year has no sentinel: its condition is the
    equality with the selected year, whatever it is, in force as soon as the
    column exists, and the sidebar always makes a selection for an existing
    column; only the absence of a selection ([None]) matches every row. *)
Theorem aplicar_filtros_conjuncao (df : DataFrame) (s : selecao) :
  columns (aplicar_filtros df s) = columns df
  /\ rows (aplicar_filtros df s)
     = filter (predicado (columns df) s) (rows df)
  /\ (forall r,
        In r (rows (aplicar_filtros df s))
        <-> In r (rows df)
            /\ cond_ano (columns df) s r = true
            /\ cond_organizacao (columns df) s r = true
            /\ cond_tipo_rede (columns df) s r = true
            /\ cond_municipio (columns df) s r = true
            /\ cond_instituicao (columns df) s r = true)
  /\ (forall sentinela c sel cs r,
        sel = sentinela -> notna sentinela = true ->
        cond_sentinela sentinela c sel cs r = true)
  /\ (forall sentinela c sel cs r,
        valor_neqb sel sentinela = true -> In c cs ->
        cond_sentinela sentinela c sel cs r = valor_eqb (celula cs c r) sel)
  /\ (forall r, ano_sel s = None -> cond_ano (columns df) s r = true)
  /\ (forall r a, ano_sel s = Some a -> In "Ano do Censo" (columns df) ->
        cond_ano (columns df) s r
        = valor_eqb (celula (columns df) "Ano do Censo" r) a)
  /\ (forall e, In "Ano do Censo" (columns df) ->
        ano_sel (barra_lateral df e) = Some (escolha_ano e)).
Proof.
  rewrite aplicar_filtros_predicado. cbn [columns rows].
  split; [reflexivity|]. split; [reflexivity|]. split; [|split; [|split; [|split; [|split]]]].
  - intros r. rewrite filter_In. unfold predicado.
    rewrite !andb_true_iff. tauto.
  - intros sentinela c sel cs r -> Hn. unfold cond_sentinela, valor_neqb.
    now rewrite valor_eqb_refl.
  - intros sentinela c sel cs r Hs Hc. unfold cond_sentinela. rewrite Hs.
    assert (Ht : tem cs c = true).
    { unfold tem. apply existsb_exists. exists c. split; [assumption|apply String.eqb_refl]. }
    now rewrite Ht.
  - intros r Hn. unfold cond_ano. now rewrite Hn.
  - intros r a Ha Hc. unfold cond_ano. rewrite Ha.
    assert (Ht : tem (columns df) "Ano do Censo" = true).
    { unfold tem. apply existsb_exists. eexists. split; [exact Hc|apply String.eqb_refl]. }
    now rewrite Ht.
  - intros e Hc. unfold barra_lateral. cbn [ano_sel].
    apply (proj2 (contem_In df _)) in Hc. now rewrite Hc.
Qed.

(** With the sentinel picked in all five select boxes the filtered subset
    is not the whole table: a year spelled like the sentinel is filtered on
    like any other year. *)
Lemma aplicar_filtros_sentinela_no_ano :
  snd (carregar_dados nenhum_numero (amb_com csv_anos_texto))
  = Ok df_anos_texto
  /\ escolha_possivel df_anos_texto (escolhas_todas Todas)
  /\ escolha_possivel df_anos_texto (escolhas_todas Todos)
  /\ len df_anos_texto = 3
  /\ len (aplicar_filtros df_anos_texto
            (barra_lateral df_anos_texto (escolhas_todas Todas))) = 1
  /\ len (aplicar_filtros df_anos_texto
            (barra_lateral df_anos_texto (escolhas_todas Todos))) = 1
  /\ aplicar_filtros df_anos_texto
       (barra_lateral df_anos_texto (escolhas_todas Todas))
     <> df_anos_texto.
Proof.
  split; [vm_compute; reflexivity|].
  split; [vm_compute; tauto|].
  split; [vm_compute; tauto|].
  split; [reflexivity|].
  split; [vm_compute; reflexivity|].
  split; [vm_compute; reflexivity|].
  intros H. apply (f_equal len) in H. vm_compute in H. discriminate.
Qed.

(** C7. Applying the same selection to the filtered subset gives the
    filtered subset again. *)
Theorem aplicar_filtros_idempotente (df : DataFrame) (s : selecao) :
  aplicar_filtros (aplicar_filtros df s) s = aplicar_filtros df s.
Proof.
  rewrite (aplicar_filtros_predicado (aplicar_filtros df s)).
  rewrite aplicar_filtros_predicado. cbn [columns rows].
  now rewrite filter_idem.
Qed.

(** ** Distinct values *)

Section Distintos.

Context {A : Type}.
Variable eq_dec : forall a b : A, {a = b} + {a <> b}.

Lemma unique_In (l : list A) (x : A) : In x (unique eq_dec l) <-> In x l.
Proof.
  induction l as [|y l IH]; simpl; [tauto|].
  rewrite filter_In, IH.
  destruct (eq_dec y x) as [->|Hne]; [tauto|].
  intuition congruence.
Qed.

Lemma unique_NoDup (l : list A) : NoDup (unique eq_dec l).
Proof.
  induction l as [|y l IH]; simpl; constructor.
  - rewrite filter_In. intros [_ H]. now destruct (eq_dec y y).
  - now apply NoDup_filter.
Qed.

Lemma unique_incl_length (l l' : list A) :
  incl l l' ->
  List.length (unique eq_dec l) <= List.length (unique eq_dec l').
Proof.
  intros H. apply NoDup_incl_length; [apply unique_NoDup|].
  intros x Hx. apply unique_In. apply H. exact (proj1 (unique_In l x) Hx).
Qed.

Lemma unique_constante (a : A) (l : list A) :
  l <> [] -> (forall x, In x l -> x = a) -> unique eq_dec l = [a].
Proof.
  induction l as [|y l IH]; [congruence|]. intros _ H. simpl.
  assert (y = a) by (apply H; now left). subst y. f_equal.
  destruct l as [|z l]; [reflexivity|].
  rewrite IH; [|discriminate|intros x Hx; apply H; now right].
  simpl. now destruct (eq_dec a a).
Qed.

End Distintos.

Lemma nunique_incl (l l' : list valor) :
  incl l l' -> nunique l <= nunique l'.
Proof.
  intros H. unfold nunique. apply unique_incl_length.
  intros x Hx. apply filter_In in Hx. apply filter_In.
  split; [apply H|]; tauto.
Qed.

Lemma contem_aplicar_filtros (df : DataFrame) (s : selecao) (c : string) :
  contem (aplicar_filtros df s) c = contem df c.
Proof. now rewrite aplicar_filtros_predicado. Qed.

Lemma coluna_aplicar_filtros (df : DataFrame) (s : selecao) (c : string) :
  coluna (aplicar_filtros df s) c
  = map (celula (columns df) c) (filter (predicado (columns df) s) (rows df)).
Proof. now rewrite aplicar_filtros_predicado. Qed.

(** C8. The number of distinct institutions of the filtered subset is at
    most that of the whole table. *)
Theorem total_ies_monotono (df : DataFrame) (s : selecao) :
  total_ies (aplicar_filtros df s) <= total_ies df.
Proof.
  unfold total_ies. rewrite contem_aplicar_filtros.
  destruct (contem df "Nome da IES"); [|lia].
  apply nunique_incl. rewrite coluna_aplicar_filtros. unfold coluna.
  intros v Hv. apply in_map_iff in Hv. destruct Hv as [r [<- Hr]].
  apply in_map. apply filter_In in Hr. tauto.
Qed.

(** C10. When an institution is selected (the selection is not 'Todas'), on
    a table that has the column, a non-empty filtered subset has exactly
    one distinct institution. *)
Theorem total_ies_instituicao_selecionada (df : DataFrame) (s : selecao) :
  valor_neqb (instituicao_sel s) Todas = true ->
  contem df "Nome da IES" = true ->
  empty (aplicar_filtros df s) = false ->
  total_ies (aplicar_filtros df s) = 1.
Proof.
  intros Hsel Hcol Hne.
  unfold total_ies. rewrite contem_aplicar_filtros, Hcol, coluna_aplicar_filtros.
  rewrite aplicar_filtros_predicado in Hne.
  set (l := filter (predicado (columns df) s) (rows df)) in *.
  assert (Hl : l <> []).
  { unfold empty in Hne. cbn [columns rows] in Hne.
    destruct (columns df); [discriminate|]. destruct l; [discriminate|discriminate]. }
  assert (Hall : forall v, In v (map (celula (columns df) "Nome da IES") l) ->
                   v = instituicao_sel s /\ notna v = true).
  { intros v Hv. apply in_map_iff in Hv. destruct Hv as [r [<- Hr]].
    apply filter_In in Hr. destruct Hr as [_ Hp]. unfold predicado in Hp.
    rewrite !andb_true_iff in Hp. destruct Hp as [_ Hi].
    unfold cond_instituicao, cond_sentinela in Hi. rewrite Hsel in Hi.
    unfold contem in Hcol. unfold tem in Hi. rewrite Hcol in Hi.
    cbn [andb] in Hi. now apply valor_eqb_eq. }
  unfold nunique.
  assert (Hf : filter notna (map (celula (columns df) "Nome da IES") l)
               = map (celula (columns df) "Nome da IES") l).
  { apply forallb_filter_id. apply forallb_forall. intros v Hv. now apply Hall. }
  rewrite Hf, (unique_constante valor_eq_dec (instituicao_sel s)); [reflexivity| |].
  - destruct l; [congruence|discriminate].
  - intros v Hv. now apply Hall.
Qed.

Lemma total_ies_instituicao_selecionada_witness :
  valor_neqb (instituicao_sel (barra_lateral df_duas escolhas_luziania)) Todas
  = true
  /\ contem df_duas "Nome da IES" = true
  /\ empty (aplicar_filtros df_duas (barra_lateral df_duas escolhas_luziania))
     = false
  /\ total_ies (aplicar_filtros df_duas (barra_lateral df_duas escolhas_luziania))
     = 1.
Proof.
  assert (H1 : valor_neqb
                 (instituicao_sel (barra_lateral df_duas escolhas_luziania))
                 Todas = true) by reflexivity.
  assert (H2 : contem df_duas "Nome da IES" = true) by reflexivity.
  assert (H3 : empty (aplicar_filtros df_duas
                        (barra_lateral df_duas escolhas_luziania)) = false)
    by reflexivity.
  split; [exact H1|]. split; [exact H2|]. split; [exact H3|].
  exact (total_ies_instituicao_selecionada df_duas _ H1 H2 H3).
Defined.

(** ** The page *)

(** C5. When the filtered subset is empty the content area is the single
    notice 'Nenhum registro encontrado...': no metric, no chart and no
    table is produced. *)
Theorem painel_sem_registros (df : DataFrame) (e : escolhas) :
  empty df = false ->
  empty (aplicar_filtros df (barra_lateral df e)) = true ->
  painel df e = [Info msg_sem_registros]
  /\ filter eh_metrica (painel df e) = []
  /\ filter eh_grafico (painel df e) = []
  /\ filter eh_tabela (painel df e) = [].
Proof.
  intros Hdf Hf. unfold painel, conteudo. rewrite Hdf, Hf. cbn [negb].
  repeat split.
Qed.

Lemma painel_sem_registros_witness :
  empty df_duas = false
  /\ empty (aplicar_filtros df_duas (barra_lateral df_duas escolhas_vazias))
     = true
  /\ escolha_possivel df_duas escolhas_vazias
  /\ painel df_duas escolhas_vazias = [Info msg_sem_registros].
Proof.
  assert (H1 : empty df_duas = false) by reflexivity.
  assert (H2 : empty (aplicar_filtros df_duas
                        (barra_lateral df_duas escolhas_vazias)) = true)
    by reflexivity.
  split; [exact H1|]. split; [exact H2|]. split.
  - vm_compute. tauto.
  - apply (painel_sem_registros df_duas escolhas_vazias H1 H2).
Defined.

(** With rows left, the page has its four metrics, six charts and the two
    tables. *)
Example painel_com_registros :
  List.length (filter eh_metrica (painel df_duas escolhas_luziania)) = 4
  /\ List.length (filter eh_grafico (painel df_duas escolhas_luziania)) = 6
  /\ List.length (filter eh_tabela (painel df_duas escolhas_luziania)) = 3.
Proof. repeat split; vm_compute; reflexivity. Qed.

(** ** Sorting *)

Section Ordenacao.

Context {A : Type}.
Variable leb : A -> A -> bool.
Hypothesis leb_total : forall a b, leb a b = true \/ leb b a = true.
Hypothesis leb_trans :
  forall a b c, leb a b = true -> leb b c = true -> leb a c = true.

Lemma insere_perm (x : A) (l : list A) : Permutation (insere leb x l) (x :: l).
Proof.
  induction l as [|y l IH]; simpl; [reflexivity|].
  destruct (leb x y); [reflexivity|].
  rewrite IH. apply perm_swap.
Qed.

Lemma ordena_perm (l : list A) : Permutation (ordena leb l) l.
Proof.
  induction l as [|x l IH]; simpl; [reflexivity|].
  rewrite insere_perm. now constructor.
Qed.

Lemma insere_sorted (x : A) (l : list A) :
  StronglySorted (fun a b => leb a b = true) l ->
  StronglySorted (fun a b => leb a b = true) (insere leb x l).
Proof.
  induction 1 as [|y l Hs IH Hall]; simpl.
  - repeat constructor.
  - destruct (leb x y) eqn:E.
    + constructor; [now constructor|].
      constructor; [assumption|].
      eapply Forall_impl; [|exact Hall]. intros z Hz. eapply leb_trans; eauto.
    + constructor; [assumption|].
      assert (Hyx : leb y x = true).
      { destruct (leb_total x y); congruence. }
      eapply Permutation_Forall; [symmetry; apply insere_perm|].
      constructor; assumption.
Qed.

Lemma ordena_sorted (l : list A) :
  StronglySorted (fun a b => leb a b = true) (ordena leb l).
Proof.
  induction l as [|x l IH]; simpl; [constructor | now apply insere_sorted].
Qed.

End Ordenacao.

(** ** Grouped sums *)

Lemma StronglySorted_relaxa {A : Type} (R S : A -> A -> Prop) (l : list A) :
  (forall a b, R a b -> S a b) -> StronglySorted R l -> StronglySorted S l.
Proof.
  intros H. induction 1 as [|x l Hs IH Hall]; constructor; [assumption|].
  eapply Forall_impl; [|exact Hall]. intros y. apply H.
Qed.

Lemma soma_leb_total (a b : list valor * list Z) :
  soma_leb a b = true \/ soma_leb b a = true.
Proof. unfold soma_leb. rewrite !Z.leb_le. lia. Qed.

Lemma soma_leb_trans (a b c : list valor * list Z) :
  soma_leb a b = true -> soma_leb b c = true -> soma_leb a c = true.
Proof. unfold soma_leb. rewrite !Z.leb_le. lia. Qed.

Lemma chaves_dos_grupos_In (df : DataFrame) (keys : list string)
    (k : list valor) :
  In k (chaves_dos_grupos df keys)
  <-> forallb notna k = true
      /\ exists r, In r (rows df) /\ chave (columns df) keys r = k.
Proof.
  unfold chaves_dos_grupos.
  split.
  - intros H. apply (Permutation_in _ (ordena_perm chave_leb _)) in H.
    apply unique_In, filter_In in H. destruct H as [H Hn].
    split; [assumption|]. apply in_map_iff in H.
    destruct H as [r [Hr Hin]]. eauto.
  - intros [Hn [r [Hin Hr]]].
    apply (Permutation_in _ (Permutation_sym (ordena_perm chave_leb _))).
    apply unique_In, filter_In. split; [|assumption].
    apply in_map_iff. eauto.
Qed.

Lemma chaves_dos_grupos_NoDup (df : DataFrame) (keys : list string) :
  NoDup (chaves_dos_grupos df keys).
Proof.
  unfold chaves_dos_grupos.
  eapply Permutation_NoDup; [symmetry; apply ordena_perm | apply unique_NoDup].
Qed.

Lemma groupby_sum_chaves (df : DataFrame) (keys cols : list string) :
  map fst (groupby_sum df keys cols) = chaves_dos_grupos df keys.
Proof.
  unfold groupby_sum, groupby. rewrite !map_map. simpl. apply map_id.
Qed.

(** The rows of the group of a one-label key without NaN are the rows
    whose cell equals the key. *)
Lemma grupo_uma_chave (df : DataFrame) (c : string) (m : valor) :
  notna m = true ->
  grupo df [c] [m] = filtra_igual c m df.
Proof.
  intros Hm. unfold grupo, filtra_igual, seleciona. f_equal.
  apply filter_ext. intros r. unfold chave, chave_eqb. cbn [map columns].
  destruct (chave_eq_dec [celula (columns df) c r] [m]) as [E|E].
  - injection E as ->. symmetry. now apply valor_eqb_refl.
  - destruct (valor_eqb (celula (columns df) c r) m) eqn:V; [|reflexivity].
    apply valor_eqb_eq in V. destruct V as [V _].
    exfalso. apply E. f_equal. exact V.
Qed.


(** * Further properties of the loader *)

Section MaisSobreACarga.

Variable parse : string -> option Z.

(** The two ways out of the loader: the empty table after an error
    message, or the normalised table after the trace alone. *)
Lemma carregar_dados_casos (amb : ambiente) (ms : list mensagem)
    (df : DataFrame) :
  carregar_dados parse amb = (ms, Ok df) ->
  (df = DataFrame_vazio /\ existsb eh_erro ms = true)
  \/ (ms = [MInfo (msg_tentando (csv_file_path_absolute amb))]
      /\ exists df0,
           read_csv (arquivo amb (csv_file_path_absolute amb)) = Ok df0
           /\ missing_cols df0 = []
           /\ executa (passos parse) (rename rename_map df0) = Ok df).
Proof.
  unfold carregar_dados, corpo.
  destruct (negb (exists_ amb _)).
  { intros [= <- <-]. left. split; reflexivity. }
  destruct (read_csv _) as [df0|e] eqn:Hr.
  2:{ intros [= <- <-]. left. split; reflexivity. }
  destruct (missing_cols df0) eqn:Hm.
  2:{ intros [= <- <-]. left. split; reflexivity. }
  rewrite normalizacao_executa.
  destruct (executa _ _) as [d|e] eqn:He.
  2:{ intros [= <- <-]. left. split; reflexivity. }
  intros [= <- <-]. right. split; [reflexivity|]. exists df0. auto.
Qed.

(** An error message and a non-empty table never come together: after any
    [st.error] the table returned is the empty one and the page is the
    single notice that the data could not be loaded; a table with rows comes
    with the trace of the path as the only message. *)
Theorem carregar_dados_erro_ou_tabela (amb : ambiente) (ms : list mensagem)
    (df : DataFrame) :
  carregar_dados parse amb = (ms, Ok df) ->
  (existsb eh_erro ms = true ->
     df = DataFrame_vazio
     /\ forall e, painel df e = [Info msg_nao_carregou])
  /\ (empty df = false ->
      ms = [MInfo (msg_tentando (csv_file_path_absolute amb))]).
Proof.
  intros H. destruct (carregar_dados_casos _ _ _ H) as [[-> He]|[-> _]].
  - split; [split; reflexivity | discriminate].
  - split; [discriminate | reflexivity].
Qed.

Lemma carregar_dados_forma (amb : ambiente) (ms : list mensagem)
    (df : DataFrame) :
  carregar_dados parse amb = (ms, Ok df) ->
  existsb eh_erro ms = false ->
  exists df0,
    read_csv (arquivo amb (csv_file_path_absolute amb)) = Ok df0
    /\ columns df = map (renomeia_rotulo rename_map) (columns df0)
    /\ len df = len df0
    /\ retangular df
    /\ forall c, In c required_original_cols ->
         contem df (renomeia_rotulo rename_map c) = true.
Proof.
  intros H Hne. destruct (carregar_dados_casos _ _ _ H) as [[_ He]|[_ H0]];
    [congruence|].
  destruct H0 as (df0 & Hr & Hm & Hex). exists df0.
  destruct (executa_Ok _ (passos_NoDup parse) _ _ Hex) as (Hc & _ & g & Hg & Hl).
  split; [assumption|]. split; [exact Hc|]. split; [|split].
  - unfold len. rewrite Hg. cbn [rename rows]. apply length_map.
  - unfold retangular. rewrite Hg, Hc. apply Forall_forall. intros r Hin.
    apply in_map_iff in Hin. destruct Hin as [r0 [<- Hr0]].
    cbn [rename rows columns] in *.
    pose proof (read_csv_retangular _ _ Hr) as Hret.
    unfold retangular in Hret. rewrite Forall_forall in Hret.
    specialize (Hret r0 Hr0).
    destruct (Hl r0) as [Hlen _]; [now rewrite length_map|].
    now rewrite Hlen, length_map.
  - intros c Hin. apply contem_In. rewrite Hc. cbn [rename columns].
    apply in_map. now apply missing_cols_nil.
Qed.

(** When no error is shown the loaded table has the rows of the file, one
    for one, under the header renamed label by label, and every row has a
    cell for every label. *)
Theorem carregar_dados_preserva_forma (amb : ambiente) (ms : list mensagem)
    (df : DataFrame) :
  carregar_dados parse amb = (ms, Ok df) ->
  existsb eh_erro ms = false ->
  exists df0,
    read_csv (arquivo amb (csv_file_path_absolute amb)) = Ok df0
    /\ columns df = map (renomeia_rotulo rename_map) (columns df0)
    /\ len df = len df0
    /\ retangular df
    /\ forall c, In c required_original_cols ->
         contem df (renomeia_rotulo rename_map c) = true.
Proof. apply carregar_dados_forma. Qed.

Lemma rotulos_dos_passos :
  map rotulo_do_passo (passos parse) = colunas_normalizadas.
Proof.
  unfold passos, passos_numericos, colunas_normalizadas.
  rewrite map_app, map_map. cbn [rotulo_do_passo fst]. rewrite map_id.
  reflexivity.
Qed.

(** Cells of the columns the loader does not rewrite (the year, the
    municipality, the names, any extra column of the file) are the cells
    of the file, missing values included. *)
Theorem carregar_dados_outras_colunas (amb : ambiente) (ms : list mensagem)
    (df : DataFrame) :
  carregar_dados parse amb = (ms, Ok df) ->
  existsb eh_erro ms = false ->
  exists df0,
    read_csv (arquivo amb (csv_file_path_absolute amb)) = Ok df0
    /\ Forall2 (fun r0 r =>
                 forall o, In o (columns df0) ->
                   ~ In (renomeia_rotulo rename_map o) colunas_normalizadas ->
                   count_occ string_dec (columns df)
                     (renomeia_rotulo rename_map o) <= 1 ->
                   celula (columns df) (renomeia_rotulo rename_map o) r
                   = celula (columns df0) o r0)
              (rows df0) (rows df).
Proof.
  intros H Hne. destruct (carregar_dados_casos _ _ _ H) as [[_ He]|[_ H0]];
    [congruence|].
  destruct H0 as (df0 & Hr & Hm & Hex). exists df0. split; [assumption|].
  destruct (executa_Ok _ (passos_NoDup parse) _ _ Hex) as (Hc & _ & g & Hg & Hl).
  rewrite Hg. change (rows (rename rename_map df0)) with (rows df0).
  apply Forall2_map_r. intros r0 Hr0 o Ho Hfora Hcnt.
  set (n := renomeia_rotulo rename_map o) in *.
  assert (Hnin : In n (columns (rename rename_map df0))).
  { unfold rename, n. cbn [columns]. now apply in_map. }
  assert (Hlen : List.length r0 = List.length (columns (rename rename_map df0))).
  { unfold rename. cbn [columns]. rewrite length_map.
    pose proof (read_csv_retangular _ _ Hr) as Hret.
    unfold retangular in Hret. rewrite Forall_forall in Hret. now apply Hret. }
  destruct (Hl r0 Hlen) as [_ Hcel].
  rewrite Hc, (Hcel n Hnin), efeito_fora by (now rewrite rotulos_dos_passos).
  apply celula_rename; [assumption|].
  unfold serie_unica. apply Nat.leb_le. now rewrite <- Hc.
Qed.

(** With pairwise distinct labels every step finds a Series. *)
Lemma executa_sem_repeticao (ps : list passo) (df : DataFrame) :
  NoDup (columns df) -> exists df', executa ps df = Ok df'.
Proof.
  revert df. induction ps as [|[[col f] e] ps IH]; intros df Hnd; simpl.
  - now exists df.
  - unfold aplica_em.
    assert (Hu : serie_unica df col = true).
    { unfold serie_unica. apply Nat.leb_le.
      now apply (proj1 (NoDup_count_occ string_dec (columns df))). }
    rewrite Hu. destruct (contem df col); simpl; apply IH; [|assumption].
    unfold transforma_coluna. destruct (posicao col (columns df)); assumption.
Qed.

(** A file that is read, has every required label and whose renamed header
    repeats no label is loaded without any error message. *)
Theorem carregar_dados_sucesso_sem_erro (amb : ambiente) (df0 : DataFrame) :
  read_csv (arquivo amb (csv_file_path_absolute amb)) = Ok df0 ->
  missing_cols df0 = [] ->
  NoDup (map (renomeia_rotulo rename_map) (columns df0)) ->
  exists df,
    carregar_dados parse amb
    = ([MInfo (msg_tentando (csv_file_path_absolute amb))], Ok df)
    /\ columns df = map (renomeia_rotulo rename_map) (columns df0)
    /\ len df = len df0
    /\ (rows df0 = [] ->
        forall e, painel df e = [Info msg_nao_carregou]).
Proof.
  intros Hr Hm Hnd.
  destruct (executa_sem_repeticao (passos parse) (rename rename_map df0) Hnd)
    as [df Hex].
  exists df.
  assert (Hload : carregar_dados parse amb
                  = ([MInfo (msg_tentando (csv_file_path_absolute amb))], Ok df)).
  { unfold carregar_dados, corpo, exists_.
    destruct (arquivo amb (csv_file_path_absolute amb)) as [|e|c] eqn:Ha;
      [discriminate Hr| |]; cbn [negb]; rewrite Hr, Hm, normalizacao_executa, Hex;
      reflexivity. }
  destruct (executa_Ok _ (passos_NoDup parse) _ _ Hex) as (Hc & _ & g & Hg & _).
  split; [exact Hload|]. split; [exact Hc|]. split.
  - unfold len. rewrite Hg. cbn [rename rows]. apply length_map.
  - intros H0 e. unfold painel, empty. rewrite Hg. cbn [rename rows].
    rewrite H0. cbn [map]. now destruct (columns df).
Qed.

End MaisSobreACarga.

Ltac rotulos_sem_repeticao :=
  repeat (constructor;
          [simpl; intros H;
           repeat (destruct H as [H|H]; [discriminate H|]); exact H|]);
  constructor.

Lemma carregar_dados_erro_ou_tabela_witness :
  carregar_dados nenhum_numero (amb_com csv_sem_colunas)
  = (fst (carregar_dados nenhum_numero (amb_com csv_sem_colunas)),
     Ok DataFrame_vazio)
  /\ existsb eh_erro (fst (carregar_dados nenhum_numero (amb_com csv_sem_colunas)))
     = true
  /\ forall e, painel DataFrame_vazio e = [Info msg_nao_carregou].
Proof.
  assert (H1 : carregar_dados nenhum_numero (amb_com csv_sem_colunas)
               = (fst (carregar_dados nenhum_numero (amb_com csv_sem_colunas)),
                  Ok DataFrame_vazio))
    by (vm_compute; reflexivity).
  assert (H2 : existsb eh_erro
                 (fst (carregar_dados nenhum_numero (amb_com csv_sem_colunas)))
               = true) by (vm_compute; reflexivity).
  split; [exact H1|]. split; [exact H2|].
  apply (carregar_dados_erro_ou_tabela nenhum_numero _ _ _ H1). exact H2.
Defined.

Lemma carregar_dados_preserva_forma_witness :
  carregar_dados nenhum_numero (amb_com csv_duas)
  = (fst (carregar_dados nenhum_numero (amb_com csv_duas)), Ok df_duas)
  /\ len df_duas = 2
  /\ retangular df_duas.
Proof.
  assert (H1 : carregar_dados nenhum_numero (amb_com csv_duas)
               = (fst (carregar_dados nenhum_numero (amb_com csv_duas)),
                  Ok df_duas)) by (vm_compute; reflexivity).
  assert (H2 : existsb eh_erro
                 (fst (carregar_dados nenhum_numero (amb_com csv_duas)))
               = false) by (vm_compute; reflexivity).
  split; [exact H1|].
  destruct (carregar_dados_preserva_forma nenhum_numero _ _ _ H1 H2)
    as (df0 & Hr & _ & Hlen & Hret & _).
  split; [reflexivity | exact Hret].
Defined.

Lemma carregar_dados_outras_colunas_witness :
  carregar_dados nenhum_numero (amb_com csv_com_obs)
  = (fst (carregar_dados nenhum_numero (amb_com csv_com_obs)), Ok df_com_obs)
  /\ exists df0,
       read_csv (arquivo (amb_com csv_com_obs)
                   (csv_file_path_absolute (amb_com csv_com_obs))) = Ok df0
       /\ Forall2 (fun r0 r =>
                    forall o, In o (columns df0) ->
                      ~ In (renomeia_rotulo rename_map o) colunas_normalizadas ->
                      count_occ string_dec (columns df_com_obs)
                        (renomeia_rotulo rename_map o) <= 1 ->
                      celula (columns df_com_obs) (renomeia_rotulo rename_map o) r
                      = celula (columns df0) o r0)
                 (rows df0) (rows df_com_obs).
Proof.
  assert (H1 : carregar_dados nenhum_numero (amb_com csv_com_obs)
               = (fst (carregar_dados nenhum_numero (amb_com csv_com_obs)),
                  Ok df_com_obs)) by (vm_compute; reflexivity).
  assert (H2 : existsb eh_erro
                 (fst (carregar_dados nenhum_numero (amb_com csv_com_obs)))
               = false) by (vm_compute; reflexivity).
  split; [exact H1|].
  exact (carregar_dados_outras_colunas nenhum_numero _ _ _ H1 H2).
Defined.

(** The blank year of the sample file is still NaN after loading, and its
    extra column is kept. *)
Example carregar_dados_ano_em_branco :
  exists r, rows df_com_obs = [r]
    /\ celula (columns df_com_obs) "Ano do Censo" r = VNaN
    /\ celula (columns df_com_obs) "OBS" r = VStr "nota".
Proof. eexists. repeat split; vm_compute; reflexivity. Qed.

Lemma carregar_dados_sucesso_sem_erro_witness :
  exists df,
    carregar_dados nenhum_numero (amb_com csv_sem_registros)
    = ([MInfo (msg_tentando
                 (csv_file_path_absolute (amb_com csv_sem_registros)))], Ok df)
    /\ len df = 0
    /\ forall e, painel df e = [Info msg_nao_carregou].
Proof.
  assert (Hr : read_csv (arquivo (amb_com csv_sem_registros)
                           (csv_file_path_absolute (amb_com csv_sem_registros)))
               = Ok (mkDF required_original_cols []))
    by (vm_compute; reflexivity).
  assert (Hm : missing_cols (mkDF required_original_cols []) = [])
    by (vm_compute; reflexivity).
  assert (Hnd : NoDup (map (renomeia_rotulo rename_map)
                         (columns (mkDF required_original_cols [])))).
  { vm_compute. rotulos_sem_repeticao. }
  destruct (carregar_dados_sucesso_sem_erro nenhum_numero _ _ Hr Hm Hnd)
    as (df & Hload & _ & Hlen & Hpag).
  exists df. split; [exact Hload|]. split; [exact Hlen|].
  apply Hpag. reflexivity.
Defined.

(** * Further properties of the filters *)

(** Filtering by one selection and then by another gives the same subset
    in either order. *)
Theorem aplicar_filtros_comuta (df : DataFrame) (s s' : selecao) :
  aplicar_filtros (aplicar_filtros df s) s'
  = aplicar_filtros (aplicar_filtros df s') s.
Proof.
  rewrite (aplicar_filtros_predicado (aplicar_filtros df s)).
  rewrite (aplicar_filtros_predicado (aplicar_filtros df s')).
  rewrite !aplicar_filtros_predicado. cbn [columns rows].
  rewrite !filter_filter. f_equal. apply filter_ext. intros r.
  apply andb_comm.
Qed.

Lemma cond_sentinela_da_linha (sentinela sel : valor) (c : string)
    (cs : list string) (r0 : list valor) :
  notna sentinela = true ->
  sel = sentinela \/ (sel = celula cs c r0 /\ notna sel = true) ->
  cond_sentinela sentinela c sel cs r0 = true.
Proof.
  unfold cond_sentinela. intros Hsent [->|[Hs Hn]].
  - unfold valor_neqb. now rewrite valor_eqb_refl.
  - destruct (valor_neqb sel sentinela && tem cs c); [|reflexivity].
    rewrite <- Hs. now apply valor_eqb_refl.
Qed.

(** A row of the table is kept whenever every pick is either left open or
    is that row's own value: picks taken from one row never lead to the
    'no records' state. *)
Theorem aplicar_filtros_linha_escolhida (df : DataFrame) (s : selecao)
    (r0 : list valor) :
  empty df = false ->
  In r0 (rows df) ->
  tirada_da_linha (columns df) s r0 ->
  In r0 (rows (aplicar_filtros df s))
  /\ empty (aplicar_filtros df s) = false.
Proof.
  intros Hne Hin (Ha & Ho & Ht & Hm & Hi).
  assert (Hk : In r0 (rows (aplicar_filtros df s))).
  { rewrite aplicar_filtros_predicado. cbn [rows]. apply filter_In.
    split; [assumption|]. unfold predicado.
    rewrite !andb_true_iff. repeat split.
    - unfold cond_ano. destruct Ha as [->|[-> Hn]]; [reflexivity|].
      destruct (tem _ _); [now apply valor_eqb_refl | reflexivity].
    - now apply cond_sentinela_da_linha.
    - now apply cond_sentinela_da_linha.
    - now apply cond_sentinela_da_linha.
    - now apply cond_sentinela_da_linha. }
  split; [assumption|].
  rewrite aplicar_filtros_predicado in *. unfold empty in *.
  cbn [columns rows] in *.
  destruct (columns df); [discriminate|].
  destruct (filter _ (rows df)); [destruct Hk | reflexivity].
Qed.

Lemma valor_eqb_NaN (v : valor) : valor_eqb v VNaN = false.
Proof. now destruct v. Qed.

(** Picking the missing value (NaN) in a box keeps no row at all, even
    when rows with a missing value exist. *)
Theorem aplicar_filtros_valor_ausente (df : DataFrame) (s : selecao) :
  escolhe_ausente df s ->
  rows (aplicar_filtros df s) = []
  /\ forall df0, conteudo df0 (aplicar_filtros df s) = [Info msg_sem_registros].
Proof.
  intros H.
  assert (Hr : rows (aplicar_filtros df s) = []).
  { rewrite aplicar_filtros_predicado. cbn [rows].
    assert (Hp : forall r, predicado (columns df) s r = false).
    { intros r. unfold predicado, cond_organizacao, cond_tipo_rede,
        cond_municipio, cond_instituicao, cond_ano, cond_sentinela, tem.
      unfold escolhe_ausente, contem in H.
      destruct H as [[-> ->]|[[-> ->]|[[-> ->]|[[-> ->]|[-> ->]]]]];
        cbn [valor_neqb valor_eqb negb andb]; rewrite valor_eqb_NaN;
        repeat rewrite andb_false_r; reflexivity. }
    induction (rows df) as [|r l IH]; simpl; [reflexivity|].
    now rewrite Hp. }
  split; [assumption|].
  intros df0. unfold conteudo, empty. rewrite Hr.
  now destruct (columns (aplicar_filtros df s)).
Qed.

(** The preview line is coherent: the number shown is that of the rows
    displayed, at most ten, at most the filtered count, itself at most the
    total. *)
Theorem previa_coerente (df : DataFrame) (s : selecao) :
  exists a b c d,
    previa df (aplicar_filtros df s)
    = [ Subheader "📋 Prévia dos Dados Filtrados"; Previa a b c; Dataframe d ]
    /\ a = len d /\ a <= 10 /\ a <= b /\ b <= c
    /\ b = len (aplicar_filtros df s) /\ c = len df
    /\ columns d = columns df
    /\ rows d = firstn 10 (rows (aplicar_filtros df s)).
Proof.
  unfold previa. do 4 eexists. split; [reflexivity|].
  unfold head, len. cbn [rows columns].
  rewrite aplicar_filtros_predicado. cbn [rows columns].
  rewrite length_firstn.
  repeat split; try lia. apply filter_length_le.
Qed.

Lemma unique_length {A : Type} (eq_dec : forall a b : A, {a = b} + {a <> b})
    (l : list A) :
  List.length (unique eq_dec l) <= List.length l.
Proof.
  induction l as [|x l IH]; simpl; [lia|].
  pose proof (filter_length_le (fun y => if eq_dec x y then false else true)
                (unique eq_dec l)). lia.
Qed.

Lemma nunique_length (l : list valor) : nunique l <= List.length l.
Proof.
  unfold nunique.
  pose proof (unique_length valor_eq_dec (filter notna l)).
  pose proof (filter_length_le notna l). lia.
Qed.

(** The two counting metrics never exceed the number of rows they are
    computed on, and filtering cannot raise the number of municipalities. *)
Theorem metricas_de_contagem (df : DataFrame) (s : selecao) :
  total_ies df <= len df
  /\ total_municipios_c_ies df <= len df
  /\ total_municipios_c_ies (aplicar_filtros df s)
     <= total_municipios_c_ies df.
Proof.
  unfold total_ies, total_municipios_c_ies, len.
  repeat split.
  - destruct (contem df _); [|lia].
    unfold coluna. pose proof (nunique_length (map (celula (columns df) "Nome da IES") (rows df))) as H.
    now rewrite length_map in H.
  - destruct (contem df _); [|lia].
    unfold coluna. pose proof (nunique_length (map (celula (columns df) "Município") (rows df))) as H.
    now rewrite length_map in H.
  - rewrite contem_aplicar_filtros. destruct (contem df _); [|lia].
    apply nunique_incl. rewrite coluna_aplicar_filtros. unfold coluna.
    intros v Hv. apply in_map_iff in Hv. destruct Hv as [r [<- Hr]].
    apply in_map. apply filter_In in Hr. tauto.
Qed.

Lemma aplicar_filtros_linha_escolhida_witness :
  empty df_duas = false
  /\ In (hd [] (rows df_duas)) (rows df_duas)
  /\ In (hd [] (rows df_duas))
        (rows (aplicar_filtros df_duas
                 (mkSel (Some (VInt 2022)) Todas Todas Todos
                    (VStr "Universidade de Brasília"))))
  /\ empty (aplicar_filtros df_duas
              (mkSel (Some (VInt 2022)) Todas Todas Todos
                 (VStr "Universidade de Brasília"))) = false.
Proof.
  assert (H1 : empty df_duas = false) by reflexivity.
  assert (H2 : In (hd [] (rows df_duas)) (rows df_duas))
    by (vm_compute; left; reflexivity).
  assert (H3 : tirada_da_linha (columns df_duas)
                 (mkSel (Some (VInt 2022)) Todas Todas Todos
                    (VStr "Universidade de Brasília"))
                 (hd [] (rows df_duas))).
  { unfold tirada_da_linha. cbn [ano_sel organizacao_sel tipo_rede_sel
                                  municipio_sel instituicao_sel].
    split; [right; split; vm_compute; reflexivity|].
    split; [left; reflexivity|]. split; [left; reflexivity|].
    split; [left; reflexivity|]. right; split; vm_compute; reflexivity. }
  split; [exact H1|]. split; [exact H2|].
  exact (aplicar_filtros_linha_escolhida df_duas _ _ H1 H2 H3).
Defined.

Lemma aplicar_filtros_valor_ausente_witness :
  escolha_possivel df_ano_ausente (mkEsc VNaN Todas Todas Todos Todas)
  /\ len df_ano_ausente = 2
  /\ rows (aplicar_filtros df_ano_ausente
             (barra_lateral df_ano_ausente (mkEsc VNaN Todas Todas Todos Todas)))
     = [].
Proof.
  assert (H : escolhe_ausente df_ano_ausente
                (barra_lateral df_ano_ausente
                   (mkEsc VNaN Todas Todas Todos Todas)))
    by (left; split; reflexivity).
  split; [vm_compute; tauto|]. split; [reflexivity|].
  apply (aplicar_filtros_valor_ausente df_ano_ausente _ H).
Defined.

(** * Further properties of the grouped views *)

Section SomasPorGrupo.

Context {A K : Type}.
Variable eqb : K -> K -> bool.
Hypothesis eqb_spec : forall a b, eqb a b = true <-> a = b.
Variable key : A -> K.
Variable f : A -> Z.

Lemma parcelas_fora (ks : list K) (r : A) (l : list A) :
  ~ In (key r) ks ->
  soma_z (map (fun k => parcela eqb key f k (r :: l)) ks)
  = soma_z (map (fun k => parcela eqb key f k l) ks).
Proof.
  induction ks as [|k ks IH]; simpl; [reflexivity|]. intros H.
  rewrite IH by tauto. unfold parcela at 1 3. simpl.
  destruct (eqb (key r) k) eqn:E; [|reflexivity].
  apply eqb_spec in E. exfalso. apply H. left. now symmetry.
Qed.

Lemma parcelas_dentro (ks : list K) (r : A) (l : list A) :
  NoDup ks -> In (key r) ks ->
  soma_z (map (fun k => parcela eqb key f k (r :: l)) ks)
  = (f r + soma_z (map (fun k => parcela eqb key f k l) ks))%Z.
Proof.
  induction 1 as [|k ks Hnotin Hnd IH]; intros Hin; [destruct Hin|].
  simpl. unfold parcela at 1 3. simpl.
  destruct (eqb (key r) k) eqn:E.
  - apply eqb_spec in E. subst k. rewrite parcelas_fora by assumption.
    simpl. lia.
  - assert (Hne : key r <> k).
    { intros <-. assert (eqb (key r) (key r) = true) by now apply eqb_spec.
      congruence. }
    rewrite IH by (destruct Hin; [congruence | assumption]). lia.
Qed.

(** Summing group by group is summing over the rows that have a group. *)
Lemma soma_por_grupos (P : A -> bool) (ks : list K) (l : list A) :
  NoDup ks ->
  (forall r, In r l -> (P r = true <-> In (key r) ks)) ->
  soma_z (map (fun k => parcela eqb key f k l) ks)
  = soma_z (map f (filter P l)).
Proof.
  intros Hnd. induction l as [|r l IH]; intros H.
  - simpl. induction ks as [|k ks IHk]; simpl; [reflexivity|].
    inversion Hnd; subst. now rewrite IHk.
  - assert (H' : forall r', In r' l -> (P r' = true <-> In (key r') ks)).
    { intros r' Hr'. apply H. now right. }
    specialize (IH H'). simpl. destruct (P r) eqn:E.
    + rewrite parcelas_dentro; [|assumption|now apply (H r (or_introl eq_refl))].
      simpl. now rewrite IH.
    + rewrite parcelas_fora; [assumption|].
      intros Hin. apply (H r (or_introl eq_refl)) in Hin. congruence.
Qed.

End SomasPorGrupo.

Lemma chave_eqb_spec (a b : list valor) : chave_eqb a b = true <-> a = b.
Proof.
  unfold chave_eqb. destruct (chave_eq_dec a b); split; congruence.
Qed.

Lemma soma_soma_z (l : list valor) : soma l = soma_z (map numero l).
Proof. reflexivity. Qed.

Lemma soma_z_perm (l l' : list Z) : Permutation l l' -> soma_z l = soma_z l'.
Proof.
  induction 1; simpl; try lia.
Qed.

Lemma groupby_sum_soma (df : DataFrame) (keys cols : list string)
    (j : nat) (c : string) :
  nth_error cols j = Some c ->
  total_da_medida j (groupby_sum df keys cols)
  = soma (coluna (com_chave keys df) c).
Proof.
  intros Hj. unfold total_da_medida, groupby_sum, groupby.
  rewrite !map_map. cbn [fst snd].
  assert (Hn : forall k, nth j (map (fun c0 => soma (coluna (grupo df keys k) c0)) cols) 0%Z
                         = soma (coluna (grupo df keys k) c)).
  { intros k. apply nth_error_nth. rewrite nth_error_map, Hj. reflexivity. }
  rewrite (map_ext _ _ Hn).
  unfold com_chave, coluna, grupo, seleciona. cbn [columns rows].
  rewrite soma_soma_z, map_map.
  rewrite <- (soma_por_grupos chave_eqb chave_eqb_spec
                (chave (columns df) keys)
                (fun r => numero (celula (columns df) c r))
                (fun r => forallb notna (chave (columns df) keys r))
                (chaves_dos_grupos df keys) (rows df)).
  - f_equal. apply map_ext. intros k. rewrite soma_soma_z, map_map. reflexivity.
  - apply chaves_dos_grupos_NoDup.
  - intros r Hr. rewrite chaves_dos_grupos_In. split.
    + intros Hp. split; [assumption|]. now exists r.
    + tauto.
Qed.

(** Grouped sums lose nothing and count nothing twice: for every summed
    column, the sums of the groups add up to the sum of the column over the
    rows that have a value in every key column; rows with a missing key
    are the only ones left out. *)
Theorem groupby_sum_conserva (df : DataFrame) (keys cols : list string)
    (j : nat) (c : string) :
  nth_error cols j = Some c ->
  total_da_medida j (groupby_sum df keys cols)
  = soma (coluna (com_chave keys df) c).
Proof. apply groupby_sum_soma. Qed.

Lemma groupby_sum_conserva_witness :
  nth_error ["Total de Técnicos"] 0 = Some "Total de Técnicos"
  /\ total_da_medida 0
       (groupby_sum df_duas ["Mantenedora"] ["Total de Técnicos"]) = 12%Z
  /\ soma (coluna (com_chave ["Mantenedora"] df_duas) "Total de Técnicos")
     = 12%Z.
Proof.
  assert (H : nth_error ["Total de Técnicos"] 0 = Some "Total de Técnicos")
    by reflexivity.
  split; [exact H|].
  pose proof (groupby_sum_conserva df_duas ["Mantenedora"]
                ["Total de Técnicos"] 0 "Total de Técnicos" H) as E.
  split; [rewrite E|]; vm_compute; reflexivity.
Defined.

Lemma com_chave_completa (keys : list string) (df : DataFrame) :
  (forall r k, In r (rows df) -> In k keys ->
     notna (celula (columns df) k r) = true) ->
  com_chave keys df = df.
Proof.
  intros H. unfold com_chave, seleciona.
  rewrite forallb_filter_id; [now destruct df|].
  apply forallb_forall. intros r Hr. apply forallb_forall.
  intros v Hv. unfold chave in Hv. apply in_map_iff in Hv.
  destruct Hv as [k [<- Hk]]. now apply H.
Qed.

(** The bars of the technical-staff view add up to the technical staff of
    the rows that have a maintaining entity: to the whole column when no
    entity is missing. *)
Theorem tec_por_mantenedora_total (df : DataFrame) :
  total_da_medida 0 (tec_por_mantenedora df)
  = soma (coluna (com_chave ["Mantenedora"] df) "Total de Técnicos")
  /\ (forallb notna (coluna df "Mantenedora") = true ->
      total_da_medida 0 (tec_por_mantenedora df)
      = soma (coluna df "Total de Técnicos")).
Proof.
  assert (E : total_da_medida 0 (tec_por_mantenedora df)
              = soma (coluna (com_chave ["Mantenedora"] df) "Total de Técnicos")).
  { rewrite <- (groupby_sum_soma df ["Mantenedora"] ["Total de Técnicos"]
                  0 "Total de Técnicos" eq_refl).
    unfold total_da_medida, tec_por_mantenedora. apply soma_z_perm.
    apply Permutation_map. apply ordena_perm. }
  split; [exact E|]. intros Hn. rewrite E, com_chave_completa; [reflexivity|].
  intros r k Hr [<-|[]]. rewrite forallb_forall in Hn. apply Hn.
  unfold coluna. now apply in_map.
Qed.

Lemma Forall2_In_r {A B : Type} (R : A -> B -> Prop) (l : list A)
    (l' : list B) (y : B) :
  Forall2 R l l' -> In y l' -> exists x, In x l /\ R x y.
Proof.
  induction 1 as [|a b l l' Hab _ IH]; simpl; [tauto|].
  intros [<-|Hin]; [eauto|]. destruct (IH Hin) as [x [Hx HR]]. eauto.
Qed.

Section TabelaCarregada.

Variable parse : string -> option Z.

(** In a table returned by the loader the coded columns hold a text in
    every row and the count columns a number. *)
Lemma carregada_sem_ausentes (amb : ambiente) (ms : list mensagem)
    (df : DataFrame) (r : list valor) (n : string) :
  carregar_dados parse amb = (ms, Ok df) ->
  In r (rows df) -> In n colunas_normalizadas ->
  notna (celula (columns df) n r) = true.
Proof.
  intros H Hr Hn. destruct (carregar_dados_casos parse _ _ _ H) as [[-> _]|[_ H0]];
    [destruct Hr|].
  destruct H0 as (df0 & Hread & Hm & Hex).
  pose proof (normalizado_celula parse df0 df (read_csv_retangular _ _ Hread) Hex)
    as HF.
  destruct (Forall2_In_r _ _ _ _ HF Hr) as (r0 & Hr0 & Hcel).
  assert (Hsrc : exists o, In o required_original_cols
                           /\ renomeia_rotulo rename_map o = n).
  { unfold colunas_normalizadas in Hn. simpl in Hn.
    repeat (destruct Hn as [Hn|Hn];
            [subst n; match goal with
             | |- exists o, _ /\ _ = ?lbl =>
                 first
                   [ exists "QT_DOC_TOTAL"; split; [simpl; tauto|reflexivity]
                   | exists "QT_TEC_TOTAL"; split; [simpl; tauto|reflexivity]
                   | exists "QT_DOC_EX_SEM_GRAD"; split; [simpl; tauto|reflexivity]
                   | exists "QT_DOC_EX_GRAD"; split; [simpl; tauto|reflexivity]
                   | exists "QT_DOC_EX_ESP"; split; [simpl; tauto|reflexivity]
                   | exists "QT_DOC_EX_MEST"; split; [simpl; tauto|reflexivity]
                   | exists "QT_DOC_EX_DOUT"; split; [simpl; tauto|reflexivity]
                   | exists "QT_LIVRO_ELETRONICO"; split; [simpl; tauto|reflexivity]
                   | exists "QT_DOC_EX_FEMI"; split; [simpl; tauto|reflexivity]
                   | exists "QT_DOC_EX_MASC"; split; [simpl; tauto|reflexivity]
                   | exists "IN_CAPITAL_IES"; split; [simpl; tauto|reflexivity]
                   | exists "TP_ORGANIZACAO_ACADEMICA"; split; [simpl; tauto|reflexivity]
                   | exists "TP_REDE"; split; [simpl; tauto|reflexivity]
                   | exists "TP_CATEGORIA_ADMINISTRATIVA"; split; [simpl; tauto|reflexivity] ]
             end|]).
    destruct Hn. }
  destruct Hsrc as (o & Ho & <-).
  rewrite (Hcel o (missing_cols_nil df0 o Hm Ho))
    by (rewrite (rotulos_dos_passos parse); exact Hn).
  clear - Hn. unfold colunas_normalizadas in Hn.
  set (v := celula (columns df0) o r0). clearbody v.
  set (n := renomeia_rotulo rename_map o) in *. clearbody n.
  simpl in Hn.
  repeat (destruct Hn as [Hn|Hn];
          [subst n; cbn [efeito passos passos_numericos numeric_cols_to_fill
                           passos_categoricos map app String.eqb Ascii.eqb
                           Bool.eqb];
           first [ destruct (coage_numero parse v) as [z ->]; reflexivity
                 | destruct (rotula_valido capital_map v) as [l [-> _]]; reflexivity
                 | destruct (rotula_valido organizacao_map v) as [l [-> _]]; reflexivity
                 | destruct (rotula_valido rede_map v) as [l [-> _]]; reflexivity
                 | destruct (rotula_valido categoria_map v) as [l [-> _]]; reflexivity ]|]).
  destruct Hn.
Qed.

End TabelaCarregada.

Lemma soma_coluna_ausente (df : DataFrame) (c : string) :
  contem df c = false -> soma (coluna df c) = 0%Z.
Proof.
  intros H. unfold coluna, celula.
  assert (Hn : ~ In c (columns df)).
  { intros Hin. apply contem_In in Hin. congruence. }
  rewrite (posicao_None _ _ Hn).
  unfold soma. induction (rows df) as [|r l IH]; simpl; [reflexivity|].
  now rewrite IH.
Qed.

Lemma rows_aplicar_filtros_In (df : DataFrame) (s : selecao) (r : list valor) :
  In r (rows (aplicar_filtros df s)) -> In r (rows df).
Proof.
  rewrite aplicar_filtros_predicado. cbn [rows]. intros H.
  apply filter_In in H. tauto.
Qed.

Lemma columns_aplicar_filtros (df : DataFrame) (s : selecao) :
  columns (aplicar_filtros df s) = columns df.
Proof. now rewrite aplicar_filtros_predicado. Qed.

(** On a table returned by the loader, whatever the selection, the grouped
    views agree with the rows they are drawn from: the boxes of the treemap
    add up to the metric 'Total de Livros Eletrônicos', and the bars of the
    chart by sex add up to the female and to the male faculty of the
    filtered subset.  No row is dropped for a missing key, because the
    coded columns have none. *)
Theorem visoes_conferem_com_as_linhas (parse : string -> option Z)
    (amb : ambiente) (ms : list mensagem) (df : DataFrame) (s : selecao) :
  carregar_dados parse amb = (ms, Ok df) ->
  total_da_medida 0
    (groupby_sum (aplicar_filtros df s)
       ["Organização Acadêmica"; "Categoria Administrativa"; "Tipo de Rede"]
       ["Total de Livros Eletrônicos"])
  = total_livros_eletronicos (aplicar_filtros df s)
  /\ total_da_medida 0
       (groupby_sum (aplicar_filtros df s) ["Organização Acadêmica"]
          ["Docentes Feminino"; "Docentes Masculino"])
     = soma (coluna (aplicar_filtros df s) "Docentes Feminino")
  /\ total_da_medida 1
       (groupby_sum (aplicar_filtros df s) ["Organização Acadêmica"]
          ["Docentes Feminino"; "Docentes Masculino"])
     = soma (coluna (aplicar_filtros df s) "Docentes Masculino").
Proof.
  intros H.
  assert (Hk : forall keys,
             incl keys colunas_normalizadas ->
             com_chave keys (aplicar_filtros df s) = aplicar_filtros df s).
  { intros keys Hinc. apply com_chave_completa. intros r k Hr Hin.
    rewrite columns_aplicar_filtros.
    apply (carregada_sem_ausentes parse amb ms df r k H).
    - now apply rows_aplicar_filtros_In in Hr.
    - now apply Hinc. }
  split; [|split].
  - rewrite (groupby_sum_soma (aplicar_filtros df s)
               ["Organização Acadêmica"; "Categoria Administrativa"; "Tipo de Rede"]
               ["Total de Livros Eletrônicos"] 0 "Total de Livros Eletrônicos"
               eq_refl).
    rewrite Hk.
    + unfold total_livros_eletronicos.
      destruct (contem (aplicar_filtros df s) _) eqn:E; [reflexivity|].
      now apply soma_coluna_ausente.
    + intros k Hin. unfold colunas_normalizadas. simpl in *. tauto.
  - rewrite (groupby_sum_soma (aplicar_filtros df s)
               ["Organização Acadêmica"]
               ["Docentes Feminino"; "Docentes Masculino"] 0 "Docentes Feminino"
               eq_refl).
    rewrite Hk; [reflexivity|].
    intros k Hin. unfold colunas_normalizadas. simpl in *. tauto.
  - rewrite (groupby_sum_soma (aplicar_filtros df s)
               ["Organização Acadêmica"]
               ["Docentes Feminino"; "Docentes Masculino"] 1 "Docentes Masculino"
               eq_refl).
    rewrite Hk; [reflexivity|].
    intros k Hin. unfold colunas_normalizadas. simpl in *. tauto.
Qed.

Lemma visoes_conferem_com_as_linhas_witness :
  carregar_dados nenhum_numero (amb_com csv_duas)
  = (fst (carregar_dados nenhum_numero (amb_com csv_duas)), Ok df_duas)
  /\ total_da_medida 0
       (groupby_sum (aplicar_filtros df_duas (barra_lateral df_duas escolhas_luziania))
          ["Organização Acadêmica"; "Categoria Administrativa"; "Tipo de Rede"]
          ["Total de Livros Eletrônicos"])
     = total_livros_eletronicos
         (aplicar_filtros df_duas (barra_lateral df_duas escolhas_luziania)).
Proof.
  assert (H1 : carregar_dados nenhum_numero (amb_com csv_duas)
               = (fst (carregar_dados nenhum_numero (amb_com csv_duas)),
                  Ok df_duas)) by (vm_compute; reflexivity).
  split; [exact H1|].
  apply (visoes_conferem_com_as_linhas nenhum_numero _ _ df_duas
           (barra_lateral df_duas escolhas_luziania) H1).
Defined.

(** * The structure of the page *)

Lemma conta_app (p : elemento -> bool) (a b : list elemento) :
  conta p (a ++ b) = conta p a + conta p b.
Proof. unfold conta. now rewrite filter_app, length_app. Qed.

Lemma conteudo_blocos (df f : DataFrame) :
  empty f = false ->
  conta eh_metrica (conteudo df f) = 4
  /\ conta eh_grafico (conteudo df f) = quantas (guardas f)
  /\ conta eh_dataframe (conteudo df f)
     = 1 + Nat.b2n (guarda_tabela f)
  /\ conta eh_aviso (conteudo df f)
     = (6 - quantas (guardas f)) + Nat.b2n (negb (guarda_tabela f)).
Proof.
  intros Hne. unfold conteudo. rewrite Hne.
  rewrite !conta_app.
  unfold grafico_ies_municipio, grafico_tec_mantenedora,
    grafico_docentes_org_sexo, grafico_cat_admin, grafico_treemap_livros,
    grafico_docentes, tabela_detalhada, guardas, guarda_tabela.
  rewrite Hne. cbn [negb]. rewrite !andb_true_r.
  set (g1 := contem f "Município" && contem f "Nome da IES").
  set (g2 := contem f "Mantenedora" && contem f "Total de Técnicos").
  set (g3 := contem_todas f ["Organização Acadêmica"; "Docentes Feminino";
                             "Docentes Masculino"]).
  set (g4 := contem f "Categoria Administrativa").
  set (g5 := contem_todas f ["Organização Acadêmica"; "Categoria Administrativa";
                             "Tipo de Rede"; "Total de Livros Eletrônicos"]).
  set (g6 := contem_todas f docentes_cols_for_plot).
  set (g7 := contem_todas f (group_cols ++ measures)).
  clearbody g1 g2 g3 g4 g5 g6 g7.
  destruct g1, g2, g3, g4, g5, g6, g7; repeat split; reflexivity.
Qed.

Lemma In_se {A : Type} (x : A) (g : bool) (a b : list A) :
  In x (if g then a else b)
  <-> (g = true /\ In x a) \/ (g = false /\ In x b).
Proof. destruct g; intuition discriminate. Qed.

Ltac entao_pertence :=
  repeat match goal with
         | H : _ \/ _ |- _ => destruct H as [H|H]
         | H : _ /\ _ |- _ => let G := fresh "G" in destruct H as [G H]
         | H : False |- _ => destruct H
         end;
  try discriminate;
  try assumption;
  try (match goal with
       | H : PlotlyChart _ _ = PlotlyChart _ _ |- _ =>
           injection H as <-; split; [assumption | reflexivity]
       end).

Ltac acha :=
  match goal with
  | |- _ \/ _ => first [ left; acha | right; acha ]
  | |- _ /\ _ => split; [assumption | acha]
  | |- _ = _ => reflexivity
  end.

Ltac resolve_bloco :=
  match goal with
  | |- forall d : DataFrame, _ =>
      intros d; rewrite ?in_app_iff, ?In_se; cbn [In];
      split;
      [ intros H; entao_pertence
      | intros H; destruct H as [H ->]; acha ]
  | |- _ <-> _ =>
      rewrite ?in_app_iff, ?In_se; cbn [In];
      split; [ intros H; entao_pertence | intros H; acha ]
  | |- _ -> _ =>
      intros H; rewrite ?in_app_iff, ?In_se; cbn [In]; acha
  end.




(** * Counts per value *)

Lemma valor_igual_spec (a b : valor) : valor_igual a b = true <-> a = b.
Proof.
  unfold valor_igual. destruct (valor_eq_dec a b); split; congruence.
Qed.

Lemma count_occ_como_soma (l : list valor) (v : valor) :
  Z.of_nat (count_occ valor_eq_dec l v)
  = soma_z (map (fun _ => 1%Z) (filter (fun x => valor_igual x v) l)).
Proof.
  induction l as [|x l IH]; [reflexivity|].
  cbn [count_occ filter]. unfold valor_igual at 1.
  destruct (valor_eq_dec x v); [|exact IH].
  rewrite Nat2Z.inj_succ. cbn [map].
  change (soma_z (1%Z :: ?t)) with (1 + soma_z t)%Z.
  rewrite <- IH. lia.
Qed.

Lemma soma_de_uns {A : Type} (l : list A) :
  soma_z (map (fun _ => 1%Z) l) = Z.of_nat (List.length l).
Proof.
  induction l as [|x l IH]; [reflexivity|].
  cbn [List.length map]. rewrite Nat2Z.inj_succ.
  change (soma_z (1%Z :: ?t)) with (1 + soma_z t)%Z. lia.
Qed.

Lemma value_counts_perm (l : list valor) :
  Permutation (value_counts l)
    (map (fun v => (v, count_occ valor_eq_dec l v))
         (unique valor_eq_dec (filter notna l))).
Proof. unfold value_counts. apply ordena_perm. Qed.

(** [value_counts] lists each value present once, NaN apart, with the
    number of its occurrences, most frequent first; the counts add up to
    the number of cells that are not NaN. *)
Lemma value_counts_propriedades (l : list valor) :
  StronglySorted conta_ge (value_counts l)
  /\ NoDup (map fst (value_counts l))
  /\ (forall v n,
        In (v, n) (value_counts l)
        <-> notna v = true /\ In v l /\ n = count_occ valor_eq_dec l v)
  /\ (forall v n, In (v, n) (value_counts l) -> 1 <= n)
  /\ soma_z (map (fun vn => Z.of_nat (snd vn)) (value_counts l))
     = Z.of_nat (List.length (filter notna l)).
Proof.
  assert (Hin : forall v n,
            In (v, n) (value_counts l)
            <-> notna v = true /\ In v l /\ n = count_occ valor_eq_dec l v).
  { intros v n. split.
    - intros H. apply (Permutation_in _ (value_counts_perm l)) in H.
      apply in_map_iff in H. destruct H as [v' [E Hv]].
      injection E as -> <-. apply unique_In, filter_In in Hv. tauto.
    - intros (Hn & Hv & ->).
      apply (Permutation_in _ (Permutation_sym (value_counts_perm l))).
      apply in_map_iff. exists v. split; [reflexivity|].
      apply unique_In, filter_In. tauto. }
  split; [|split; [|split; [exact Hin|split]]].
  - unfold value_counts.
    eapply StronglySorted_relaxa;
      [|apply (ordena_sorted (fun a b : valor * nat => Nat.leb (snd b) (snd a)))].
    + intros a b H. unfold conta_ge. now apply Nat.leb_le.
    + intros a b. rewrite !Nat.leb_le. lia.
    + intros a b c. rewrite !Nat.leb_le. lia.
  - eapply Permutation_NoDup.
    + apply Permutation_map. symmetry. apply value_counts_perm.
    + rewrite map_map. cbn [fst]. rewrite map_id. apply unique_NoDup.
  - intros v n H. apply Hin in H. destruct H as (_ & Hv & ->).
    apply (count_occ_In valor_eq_dec) in Hv. lia.
  - rewrite (soma_z_perm _ _ (Permutation_map _ (value_counts_perm l))).
    rewrite map_map. cbn [snd].
    rewrite (map_ext _ _ (count_occ_como_soma l)).
    rewrite <- soma_de_uns.
    apply (soma_por_grupos valor_igual valor_igual_spec (fun x => x)
             (fun _ => 1%Z) notna).
    + apply unique_NoDup.
    + intros r Hr. rewrite unique_In, filter_In. tauto.
Qed.

Lemma coluna_dois (c1 c2 : string) (rs : list (valor * valor)) :
  c1 <> c2 ->
  coluna (mkDF [c1; c2] (map (fun p => [fst p; snd p]) rs)) c2
  = map snd rs.
Proof.
  intros Hne. unfold coluna, celula. cbn [columns rows posicao].
  destruct (String.eqb_spec c2 c1) as [E|_]; [congruence|].
  rewrite String.eqb_refl, map_map. reflexivity.
Qed.

(** The slices of the pie by administrative category add up to the number
    of rows with a category: to the number of filtered rows on a loaded
    table. *)
Theorem cat_admin_counts_total (df : DataFrame) :
  soma (coluna (cat_admin_counts df) "Número de IES")
  = Z.of_nat (List.length
                (filter notna (coluna df "Categoria Administrativa")))
  /\ (forallb notna (coluna df "Categoria Administrativa") = true ->
      soma (coluna (cat_admin_counts df) "Número de IES")
      = Z.of_nat (len df)).
Proof.
  assert (E : soma (coluna (cat_admin_counts df) "Número de IES")
              = Z.of_nat (List.length
                            (filter notna (coluna df "Categoria Administrativa")))).
  { assert (Hv : cat_admin_counts df
                 = mkDF ["Categoria Administrativa"; "Número de IES"]
                     (map (fun p => [fst p; snd p])
                        (map (fun vn : valor * nat =>
                                (fst vn, VInt (Z.of_nat (snd vn))))
                           (value_counts
                              (coluna df "Categoria Administrativa"))))).
    { unfold cat_admin_counts. rewrite map_map. reflexivity. }
    rewrite Hv, coluna_dois by discriminate.
    unfold soma. rewrite !map_map. cbn [snd numero].
    apply value_counts_propriedades. }
  split; [exact E|]. intros H. rewrite E.
  rewrite forallb_filter_id by assumption.
  unfold coluna, len. now rewrite length_map.
Qed.

(** * Institutions per municipality, faculty by sex *)

(** The chart of institutions per municipality has one bar per municipality
    of the table (NaN apart); its height is the number of distinct
    institutions among the rows of that municipality, never more than the
    metric 'Total de IES' of the same rows. *)
Theorem ies_por_municipio_contagem (df : DataFrame) :
  NoDup (map fst (groupby_nunique df "Município" "Nome da IES"))
  /\ (forall k n,
        In (k, n) (groupby_nunique df "Município" "Nome da IES")
        <-> exists m,
              k = [m] /\ notna m = true
              /\ In m (coluna df "Município")
              /\ n = nunique (coluna (filtra_igual "Município" m df)
                                "Nome da IES"))
  /\ (forall k n,
        In (k, n) (groupby_nunique df "Município" "Nome da IES") ->
        n <= nunique (coluna df "Nome da IES"))
  /\ rows (ies_por_municipio df)
     = map (fun kn => (fst kn ++ [VInt (Z.of_nat (snd kn))])%list)
           (groupby_nunique df "Município" "Nome da IES").
Proof.
  assert (Hin : forall k n,
            In (k, n) (groupby_nunique df "Município" "Nome da IES")
            <-> exists m,
                  k = [m] /\ notna m = true
                  /\ In m (coluna df "Município")
                  /\ n = nunique (coluna (filtra_igual "Município" m df)
                                    "Nome da IES")).
  { intros k n. unfold groupby_nunique, groupby. rewrite map_map. cbn [fst snd].
    split.
    - intros H. apply in_map_iff in H. destruct H as [k' [E Hk]].
      injection E as <- <-.
      apply chaves_dos_grupos_In in Hk. destruct Hk as [Hn [r [Hr Hc]]].
      unfold chave in Hc. cbn [map] in Hc. subst k'.
      cbn [forallb] in Hn. rewrite andb_true_r in Hn.
      exists (celula (columns df) "Município" r).
      repeat split; try assumption.
      + unfold coluna. now apply in_map.
      + now rewrite grupo_uma_chave.
    - intros [m [-> [Hn [Hm ->]]]]. apply in_map_iff. exists [m]. split.
      + now rewrite grupo_uma_chave.
      + apply chaves_dos_grupos_In. split; [cbn [forallb]; now rewrite Hn|].
        unfold coluna in Hm. apply in_map_iff in Hm.
        destruct Hm as [r [Hr Hm]]. exists r. split; [assumption|].
        unfold chave. cbn [map]. now rewrite Hr. }
  split; [|split; [exact Hin|split; [|reflexivity]]].
  - unfold groupby_nunique, groupby. rewrite !map_map. cbn [fst].
    rewrite map_id. apply chaves_dos_grupos_NoDup.
  - intros k n H. apply Hin in H. destruct H as [m [_ [_ [_ ->]]]].
    apply nunique_incl. unfold coluna, filtra_igual, seleciona.
    cbn [columns rows]. intros v Hv. apply in_map_iff in Hv.
    destruct Hv as [r [<- Hr]]. apply in_map. apply filter_In in Hr. tauto.
Qed.

Lemma groupby_sum_uma_chave (df : DataFrame) (c : string)
    (cols : list string) (kz : list valor * list Z) :
  In kz (groupby_sum df [c] cols) -> exists m, fst kz = [m].
Proof.
  intros H. apply (in_map fst) in H. rewrite groupby_sum_chaves in H.
  apply chaves_dos_grupos_In in H. destruct H as [_ [r [_ Hc]]].
  unfold chave in Hc. cbn [map] in Hc. eauto.
Qed.

Lemma soma_z_app (a b : list Z) : soma_z (a ++ b) = (soma_z a + soma_z b)%Z.
Proof. induction a as [|x a IH]; simpl; lia. Qed.

(** The long table handed to the chart by sex has two rows per academic
    organization, the female rows first; its quantities add up to the
    female plus the male faculty of the rows that have an organization. *)
Theorem docentes_long_total (df : DataFrame) :
  len (docentes_long df)
  = 2 * List.length (chaves_dos_grupos df ["Organização Acadêmica"])
  /\ soma (coluna (docentes_long df) "Quantidade de Docentes")
     = (soma (coluna (com_chave ["Organização Acadêmica"] df)
                "Docentes Feminino")
        + soma (coluna (com_chave ["Organização Acadêmica"] df)
                  "Docentes Masculino"))%Z.
Proof.
  set (g := groupby_sum df ["Organização Acadêmica"]
              ["Docentes Feminino"; "Docentes Masculino"]).
  split.
  - unfold len, docentes_long. fold g. cbn [rows].
    rewrite length_app, !length_map.
    replace (List.length g)
      with (List.length (chaves_dos_grupos df ["Organização Acadêmica"])).
    + lia.
    + unfold g. rewrite <- groupby_sum_chaves with (cols :=
        ["Docentes Feminino"; "Docentes Masculino"]). now rewrite length_map.
  - rewrite <- (groupby_sum_soma df ["Organização Acadêmica"]
                  ["Docentes Feminino"; "Docentes Masculino"] 0
                  "Docentes Feminino" eq_refl).
    rewrite <- (groupby_sum_soma df ["Organização Acadêmica"]
                  ["Docentes Feminino"; "Docentes Masculino"] 1
                  "Docentes Masculino" eq_refl).
    fold g. unfold docentes_long. fold g.
    unfold coluna. cbn [columns rows]. rewrite map_app, !map_map.
    unfold soma. rewrite map_app, soma_z_app, !map_map.
    unfold total_da_medida. f_equal.
    + f_equal. apply map_ext_in. intros kz Hkz.
      destruct (groupby_sum_uma_chave _ _ _ _ Hkz) as [m ->]. reflexivity.
    + f_equal. apply map_ext_in. intros kz Hkz.
      destruct (groupby_sum_uma_chave _ _ _ _ Hkz) as [m ->]. reflexivity.
Qed.

(** * The main block as it runs *)

Lemma existsb_unique (p : valor -> bool) (l : list valor) :
  existsb p (unique valor_eq_dec l) = existsb p l.
Proof.
  apply Bool.eq_iff_eq_true. rewrite !existsb_exists.
  split; intros [x [Hx Hp]]; exists x; split; try assumption;
    now apply (unique_In valor_eq_dec l x).
Qed.

Lemma mistura_unique (l : list valor) :
  mistura (unique valor_eq_dec l) = mistura l.
Proof. unfold mistura. now rewrite !existsb_unique. Qed.

Lemma mistura_coluna_ausente (df : DataFrame) (c : string) :
  contem df c = false -> mistura (coluna df c) = false.
Proof.
  intros H. unfold mistura, coluna, celula.
  assert (Hn : ~ In c (columns df)).
  { intros Hin. apply contem_In in Hin. congruence. }
  rewrite (posicao_None _ _ Hn).
  assert (E : existsb eh_texto (map (fun _ : list valor => VNaN) (rows df))
              = false).
  { induction (rows df) as [|r l IH]; simpl; [reflexivity | exact IH]. }
  now rewrite E.
Qed.

(** On a table with distinct labels a select box is built unless its
    column mixes texts with numbers or missing values. *)
Lemma caixa_rotulos_distintos (extra : list valor) (df : DataFrame)
    (c : string) :
  rotulos_distintos df ->
  caixa extra df c
  = if mistura (coluna df c) then Levanta erro_sorted
    else Ok (if contem df c
             then (extra ++ ordena valor_leb
                              (unique valor_eq_dec (coluna df c)))%list
             else extra).
Proof.
  intros Hnd. unfold caixa.
  assert (Hu : serie_unica df c = true).
  { unfold serie_unica. apply Nat.leb_le.
    now apply (proj1 (NoDup_count_occ string_dec (columns df))). }
  rewrite Hu. destruct (contem df c) eqn:Hc.
  - unfold sorted. rewrite mistura_unique.
    destruct (mistura (coluna df c)); reflexivity.
  - now rewrite mistura_coluna_ausente.
Qed.


